(** * Glue job constructs: argument assembly and job resolution

    A shallow embedding of the two job constructs of
    [packages/@aws-cdk/aws-glue-alpha/lib/jobs]:

    - [pyspark-streaming-job.ts]  (class [pySparkStreamingJob]),
    - [ray-job.ts]                (class [RayJob]).

    JavaScript objects used as string-keyed dictionaries are finite maps
    ([gmap string string]); [undefined] is [None]; a constructor is a
    computation in a state-and-exception monad over the part of the
    construct tree that the constructors touch (job constructs registered,
    buckets created, grants made, managed policies attached, [CfnJob]
    resources emitted). *)

From Stdlib Require Import ZArith Ascii.
From stdpp Require Import base option list strings gmap.

Local Open Scope string_scope.

(** ** Data model *)

(** An argument map: command-line style job parameters. *)
Abbreviation ArgumentMap := (gmap string string).

(** Modelled from the spec: the [constants] module is not among the
    sources.  The members listed are those the sources use or name in their
    header comments (job kinds; Python 3.9; versions 2.0, 3.0, 4.0; workers
    G1, G2 and Z.2X; languages Python and Scala).  Every member is a
    non-empty string at run time, hence truthy. *)
Inductive JobType := ETL | STREAMING | PYTHON_SHELL | RAY.
Inductive PythonVersion := THREE_NINE.
Inductive GlueVersion := V2_0 | V3_0 | V4_0.
Inductive WorkerType := G_1X | G_2X | Z_2X.
Inductive JobLanguage := PYTHON | SCALA.

(** Modelled from the spec: the string a [JobLanguage] member stands for
    (it is the value stored under ["--job-language"]). *)
Definition JobLanguage_value (l : JobLanguage) : string :=
  match l with
  | PYTHON => "python"
  | SCALA => "scala"
  end.

(** External collaborators, reduced to what the constructors read. *)
Record IRole := { roleArn : string }.
Record IBucket := { bucketName : string }.
Record Code := { codeKey : string }.
Record IConnection := { connectionName : string }.
Record ISecurityConfiguration := { securityConfigurationName : string }.

(** A [Duration] of the CDK, used for the job's timeout: a whole,
    non-negative amount of a time unit. *)
Inductive TimeUnit := Milliseconds | Seconds | Minutes | Hours | Days.

Record Duration := { amount : Z; timeUnit : TimeUnit }.

(** [duration.toMinutes()]: the amount converted to minutes.  A duration
    that is not a whole number of minutes has no conversion, and the call
    throws. *)
Definition toMinutes (d : Duration) : option Z :=
  match timeUnit d with
  | Milliseconds =>
      if (amount d mod 60000 =? 0)%Z then Some (amount d / 60000)%Z else None
  | Seconds =>
      if (amount d mod 60 =? 0)%Z then Some (amount d / 60)%Z else None
  | Minutes => Some (amount d)
  | Hours => Some (amount d * 60)%Z
  | Days => Some (amount d * 1440)%Z
  end.

Record ContinuousLoggingProps := {
  enabled : bool;
  logGroup : option string;
  logStreamPrefix : option string;
  conversionPattern : option string;
  quiet : option bool
}.

Record SparkUIProps := {
  bucket : option IBucket;
  prefix : option string
}.

Record SparkUILoggingLocation := {
  location_prefix : option string;
  location_bucket : IBucket
}.

(** [JobProperties], with the fields the two constructors read.  The
    worker count is spelled [numberOrWorkers], as the constructor reads
    it. *)
Record JobProperties := {
  jobName : option string;
  description : option string;
  role : IRole;
  script : Code;
  glueVersion : option GlueVersion;
  workerType : option WorkerType;
  numberOrWorkers : option Z;
  maxRetries : option Z;
  maxConcurrentRuns : option Z;
  timeout : option Duration;
  connections : option (list IConnection);
  securityConfiguration : option ISecurityConfiguration;
  tags : option (gmap string string);
  defaultArguments : option (gmap string string);
  continuousLogging : option ContinuousLoggingProps
}.

(** [interface PySparkStreamingJobProperties extends JobProperties]. *)
Record PySparkStreamingJobProperties := {
  base :> JobProperties;
  sparkUI : option SparkUIProps;
  extraPythonFiles : option (list string)
}.

(** [interface RayJobProperties extends JobProperties {}]. *)
Abbreviation RayJobProperties := JobProperties.

(** The object [setupSparkUI] returns. *)
Record SparkUISetup := {
  location : SparkUILoggingLocation;
  args : gmap string string
}.

(** The property bag handed to [new CfnJob(this, 'Resource', ...)]. *)
Record JobCommand := {
  command_name : JobType;
  scriptLocation : string;
  pythonVersion : PythonVersion
}.

Record CfnJobProps := {
  cfn_name : option string;
  cfn_description : option string;
  cfn_role : string;
  cfn_command : JobCommand;
  cfn_glueVersion : option GlueVersion;
  cfn_workerType : option WorkerType;
  cfn_numberOfWorkers : option Z;
  cfn_maxRetries : option Z;
  cfn_executionProperty : option Z;
  cfn_timeout : option Z;
  cfn_connections : option (list string);
  cfn_securityConfiguration : option string;
  cfn_tags : option (gmap string string);
  cfn_defaultArguments : gmap string string
}.

(** The argument of the role assignment's trailing object literal. *)
Record RoleProps := {
  assumedBy : string;
  managedPolicies : list string
}.

(** The fields of a job instance.  A field the constructor never assigns
    stays [undefined], that is [None]. *)
Record Job := {
  this_jobArn : option string;
  this_jobName : option string;
  this_role : IRole;
  this_grantPrincipal : IRole;
  this_sparkUILoggingLocation : option SparkUILoggingLocation
}.

(** A construct that the inherited constructor has put into the tree: its
    scope, its id and the physical name it was given. *)
Record ConstructNode := {
  node_scope : string;
  node_id : string;
  node_physicalName : option string
}.

(** The part of the construct tree the constructors can change: the job
    constructs registered by the inherited constructor, buckets created
    (owning construct, local id), read/write grants (bucket, grantee,
    object key pattern), managed policies attached to roles, and [CfnJob]
    resources emitted (owning construct, properties). *)
Record World := {
  constructs : list ConstructNode;
  createdBuckets : list (string * string);
  grants : list (IBucket * IRole * option string);
  attachedManagedPolicies : list (IRole * string);
  emitted : list (string * CfnJobProps)
}.

Definition empty_world : World :=
  {| constructs := [];
     createdBuckets := []; grants := []; attachedManagedPolicies := [];
     emitted := [] |}.

(** The world with another tree of job constructs. *)
Definition with_constructs (tree : list ConstructNode) (w : World) : World :=
  {| constructs := tree;
     createdBuckets := createdBuckets w;
     grants := grants w;
     attachedManagedPolicies := attachedManagedPolicies w;
     emitted := emitted w |}.

(** ** Errors and the construction monad *)

(** The throw sites.  The sources and the libraries throw plain [Error]
    objects; the constructors name the site: the inherited constructor
    refusing the id in the scope, prefix validation, the reserved-argument
    check, the worker pairing check (with its message), and the conversion
    of the timeout to minutes. *)
Inductive JobError :=
  | ConstructError (scope id : string)
  | ValidationError (invalid_prefix : option string)
  | ReservedArgumentError (keys : list string)
  | ConfigurationError (message : string)
  | DurationError (timeout : Duration).

Inductive Outcome (A : Type) :=
  | Returned (a : A)
  | Thrown (e : JobError).
Arguments Returned {A} a.
Arguments Thrown {A} e.

(** A computation changes the world and returns or throws; what was done
    before a throw stays done. *)
Definition M (A : Type) : Type := World → Outcome A * World.

Definition ret {A} (a : A) : M A := λ w, (Returned a, w).

Definition throw {A} (e : JobError) : M A := λ w, (Thrown e, w).

Definition bind {A B} (m : M A) (k : A → M B) : M B :=
  λ w, match m w with
       | (Returned a, w') => k a w'
       | (Thrown e, w') => (Thrown e, w')
       end.

Declare Scope job_scope.
Delimit Scope job_scope with job.
Notation "'let!' x ':=' m 'in' k" := (bind m (λ x, k))
  (at level 10, x pattern, m at level 100, k at level 200) : job_scope.
Notation "m ';;;' k" := (bind m (λ _, k))
  (at level 100, k at level 200, right associativity) : job_scope.

(** ** JavaScript expression forms *)

(** Truthiness of an optional object or enum member: only [undefined] is
    falsy. *)
Definition truthy {A} (o : option A) : bool :=
  match o with
  | Some _ => true
  | None => false
  end.

(** Truthiness of an optional number: [undefined] and [0] are falsy. *)
Definition truthy_number (o : option Z) : bool :=
  match o with
  | Some n => negb (n =? 0)%Z
  | None => false
  end.

(** [x !== undefined]. *)
Definition defined {A} (o : option A) : bool := truthy o.

(** The comma operator: both operands are evaluated, the value is the
    second one. *)
Definition comma {A B} (_ : A) (b : B) : B := b.

(** One spread element [...source] of an object literal: every own key of
    [source] is written into the object under construction, over what an
    earlier element wrote; spreading [undefined] writes nothing. *)
Definition spread (target : gmap string string)
    (source : option (gmap string string)) : gmap string string :=
  match source with
  | Some src => src ∪ target
  | None => target
  end.

(** An object literal made of spread elements only, left to right. *)
Definition spread_all (sources : list (option (gmap string string)))
    : gmap string string :=
  foldl spread ∅ sources.

(** ** The job constructs *)

(** What the constructors use from modules that are not among the sources:
    the [Job] base class ([./job]), the Spark UI helpers ([./spark-ui]),
    the bucket's URL builder and the reference of an emitted resource. *)
Class JobBase := {
  (** [super(scope, id, { physicalName })], the constructor inherited from
      [Job]: given the constructs already in the tree, it refuses the new
      one ([None], it throws) or yields the tree with the new one in it *)
  Job_super :
    string → string → option string →
    list ConstructNode → option (list ConstructNode);
  (** the keys [checkNoReservedArgs] refuses *)
  reservedArgs : gset string;
  (** the prefix format [validateSparkUiPrefix] accepts *)
  validSparkUiPrefix : option string → bool;
  cleanSparkUiPrefixForGrant : option string → option string;
  (** [bucket.s3UrlForObject(key)] *)
  s3UrlForObject : IBucket → option string → string;
  (** [this.setupContinuousLogging(role, props)]: the logging fragment *)
  setupContinuousLogging : IRole → ContinuousLoggingProps → gmap string string;
  (** [this.codeS3ObjectUrl(code)] *)
  codeS3ObjectUrl : Code → string;
  (** [resource.ref] of the resource with the given owner and local id *)
  resourceRef : string → string → string;
  (** [this.getResourceNameAttribute(ref)] *)
  getResourceNameAttribute : string → string;
  (** [this.buildJobArn(this, name)] *)
  buildJobArn : string → string → string
}.

Section Constructs.
Context {JB : JobBase}.
Local Open Scope job_scope.

(** Modelled from the spec: [checkNoReservedArgs] of the [Job] base class
    ([./job] is not among the sources).  Every key of the caller's map is
    checked against the reserved keys; a collision throws, naming the
    offending keys; otherwise the map is handed back as it came. *)
Definition offendingKeys (args : gmap string string) : list string :=
  elements (dom args ∩ reservedArgs).

Definition checkNoReservedArgs (args : option (gmap string string))
    : M (option (gmap string string)) :=
  match args with
  | None => ret None
  | Some m =>
      match offendingKeys m with
      | [] => ret (Some m)
      | ks => throw (ReservedArgumentError ks)
      end
  end.

(** Modelled from the spec: [validateSparkUiPrefix] of [./spark-ui] (not
    among the sources): a prefix of the wrong format throws, naming it. *)
Definition validateSparkUiPrefix (p : option string) : M unit :=
  if validSparkUiPrefix p then ret tt else throw (ValidationError p).

(** [super(scope, id, { physicalName })]: the call of the inherited
    constructor. *)
Definition super_call (scope id : string) (physicalName : option string)
    : M unit :=
  λ w, match Job_super scope id physicalName (constructs w) with
       | Some tree => (Returned tt, with_constructs tree w)
       | None => (Thrown (ConstructError scope id), w)
       end.

(** [new Bucket(scope, id)].  The scope is the job under construction,
    whose node is new, so the id cannot be taken. *)
Definition new_Bucket (scope id : string) : M IBucket :=
  λ w, (Returned {| bucketName := scope +:+ "/" +:+ id |},
        {| constructs := constructs w;
           createdBuckets := createdBuckets w ++ [(scope, id)];
           grants := grants w;
           attachedManagedPolicies := attachedManagedPolicies w;
           emitted := emitted w |}).

(** [bucket.grantReadWrite(identity, objectsKeyPattern)]. *)
Definition grantReadWrite (b : IBucket) (identity : IRole)
    (pattern : option string) : M unit :=
  λ w, (Returned tt,
        {| constructs := constructs w;
           createdBuckets := createdBuckets w;
           grants := grants w ++ [(b, identity, pattern)];
           attachedManagedPolicies := attachedManagedPolicies w;
           emitted := emitted w |}).

(** [new CfnJob(scope, id, props)]; the value is the resource's [ref].
    The scope is the job under construction, as for [new_Bucket]. *)
Definition new_CfnJob (scope id : string) (props : CfnJobProps) : M string :=
  λ w, (Returned (resourceRef scope id),
        {| constructs := constructs w;
           createdBuckets := createdBuckets w;
           grants := grants w;
           attachedManagedPolicies := attachedManagedPolicies w;
           emitted := emitted w ++ [(scope, props)] |}).

(** The role assignment common to both constructors:
    [this.role = props.role, { assumedBy: ..., managedPolicies: [...] };]
    Assignment binds tighter than the comma, so the field receives
    [props.role]; the object literal is the value of the whole expression
    statement, which is dropped. *)
Definition assign_role (props : JobProperties) : IRole * RoleProps :=
  let this_role := role props in
  (this_role,
   comma this_role
     {| assumedBy := "glue.amazonaws.com";
        managedPolicies := ["service-role/AWSGlueServiceRole"] |}).

(** *** [pySparkStreamingJob] *)

(** [executableArguments]: the body of the [extraPythonFiles] branch is a
    comment. *)
Definition executableArguments (props : PySparkStreamingJobProperties)
    : gmap string string :=
  let args : gmap string string := ∅ in
  let args := <["--job-language" := JobLanguage_value PYTHON]> args in
  let args :=
    if match extraPythonFiles props with
       | Some files => (0 <? length files)%nat
       | None => false
       end
    then args
    else args in
  args.

(** [setupSparkUI]. *)
Definition setupSparkUI (this : string) (role : IRole)
    (sparkUiProps : SparkUIProps)
    : M SparkUISetup :=
  validateSparkUiPrefix (prefix sparkUiProps) ;;;
  let! bucket :=
    match bucket sparkUiProps with
    | Some b => ret b
    | None => new_Bucket this "SparkUIBucket"
    end in
  grantReadWrite bucket role
    (cleanSparkUiPrefixForGrant (prefix sparkUiProps)) ;;;
  let args : gmap string string :=
    <["--spark-event-logs-path" :=
        s3UrlForObject bucket (prefix sparkUiProps)]>
      (<["--enable-spark-ui" := "true"]> ∅) in
  ret {| location := {| location_prefix := prefix sparkUiProps;
                         location_bucket := bucket |};
         args := args |}.

(** The worker pairing check of the constructor. *)
Definition workerPairingBroken (props : JobProperties) : bool :=
  (negb (truthy (workerType props)) && defined (numberOrWorkers props))
  || (truthy (workerType props) && negb (defined (numberOrWorkers props))).

(** The constructor of [pySparkStreamingJob]; [scope] and [id] give the
    path of the new construct.  The properties of the [CfnJob] are
    evaluated before it is created, so the conversion of the timeout
    throws, if it does, before anything is emitted. *)
Definition pySparkStreamingJob_constructor (scope id : string)
    (props : PySparkStreamingJobProperties) : M Job :=
  let this := scope +:+ "/" +:+ id in
  super_call scope id (jobName props) ;;;
  let this_role := fst (assign_role props) in
  let this_grantPrincipal := this_role in
  let! sparkUIArgs :=
    match sparkUI props with
    | Some ui =>
        if truthy (bucket ui)
        then let! r := setupSparkUI this this_role ui in ret (Some r)
        else ret None
    | None => ret None
    end in
  let this_sparkUILoggingLocation := option_map location sparkUIArgs in
  let continuousLoggingArgs : gmap string string :=
    match continuousLogging props with
    | Some cl => if enabled cl then setupContinuousLogging this_role cl else ∅
    | None => ∅
    end in
  let profilingMetricsArgs : gmap string string :=
    <["--enable-metrics" := ""]> ∅ in
  let executableArgs := executableArguments props in
  let! callerArgs := checkNoReservedArgs (defaultArguments props) in
  let defaultArguments :=
    spread_all [Some executableArgs; Some continuousLoggingArgs;
                Some profilingMetricsArgs; option_map args sparkUIArgs;
                callerArgs] in
  if workerPairingBroken props
  then throw (ConfigurationError
                "Both workerType and numberOrWorkers must be set")
  else
    let! timeoutMinutes :=
      match timeout props with
      | Some d =>
          match toMinutes d with
          | Some minutes => ret (Some minutes)
          | None => throw (DurationError d)
          end
      | None => ret None
      end in
    let! jobResource_ref :=
      new_CfnJob this "Resource"
        {| cfn_name := jobName props;
           cfn_description := description props;
           cfn_role := roleArn this_role;
           cfn_command :=
             {| command_name := STREAMING;
                scriptLocation := codeS3ObjectUrl (script props);
                pythonVersion := THREE_NINE |};
           cfn_glueVersion :=
             Some (match glueVersion props with
                   | Some v => v
                   | None => V4_0
                   end);
           cfn_workerType :=
             Some (match workerType props with
                   | Some t => t
                   | None => G_2X
                   end);
           cfn_numberOfWorkers := numberOrWorkers props;
           cfn_maxRetries := maxRetries props;
           cfn_executionProperty :=
             if truthy_number (maxConcurrentRuns props)
             then maxConcurrentRuns props
             else None;
           cfn_timeout := timeoutMinutes;
           cfn_connections :=
             option_map (map connectionName) (connections props);
           cfn_securityConfiguration :=
             option_map securityConfigurationName
               (securityConfiguration props);
           cfn_tags := tags props;
           cfn_defaultArguments := defaultArguments |} in
    let resourceName := getResourceNameAttribute jobResource_ref in
    ret {| this_jobArn := Some (buildJobArn this resourceName);
           this_jobName := Some resourceName;
           this_role := this_role;
           this_grantPrincipal := this_grantPrincipal;
           this_sparkUILoggingLocation := this_sparkUILoggingLocation |}.

(** *** [RayJob] *)

(** The constructor of [RayJob]: the inherited constructor, the role
    assignment, then the object
    literal of the caller's checked arguments, bound to a local that is
    not used, and nothing after it: [jobArn] and [jobName] are never
    assigned. *)
Definition RayJob_constructor (scope id : string) (props : RayJobProperties)
    : M Job :=
  super_call scope id (jobName props) ;;;
  let this_role := fst (assign_role props) in
  let this_grantPrincipal := this_role in
  let! callerArgs := checkNoReservedArgs (defaultArguments props) in
  let defaultArguments := spread_all [callerArgs] in
  ret {| this_jobArn := None;
         this_jobName := None;
         this_role := this_role;
         this_grantPrincipal := this_grantPrincipal;
         this_sparkUILoggingLocation := None |}.

End Constructs.

(** ** Job variants *)

(** The variants the sources define.  A [RayJob] takes the base properties
    only, so every input of either constructor is (the base of) a
    [PySparkStreamingJobProperties]. *)
Inductive JobVariant := PySparkStreamingVariant | RayVariant.

Definition construct {JB : JobBase} (v : JobVariant) (scope id : string)
    (props : PySparkStreamingJobProperties) : M Job :=
  match v with
  | PySparkStreamingVariant => pySparkStreamingJob_constructor scope id props
  | RayVariant => RayJob_constructor scope id (base props)
  end.

(** ** The argument resolver as the specification words it *)

(** The ordered merge of argument fragments, lowest precedence first: on a
    key collision the later fragment wins. *)
Fixpoint ordered_merge (fragments : list (gmap string string))
    : gmap string string :=
  match fragments with
  | [] => ∅
  | m :: later => ordered_merge later ∪ m
  end.

(** The fragments of a PySpark Streaming job, named as in the
    specification. *)
Definition variantRequiredArgs : gmap string string :=
  {[ "--job-language" := "python" ]}.

Definition continuousLoggingFragment {JB : JobBase} (props : JobProperties)
    : gmap string string :=
  match continuousLogging props with
  | Some cl =>
      if enabled cl then setupContinuousLogging (role props) cl else ∅
  | None => ∅
  end.

Definition metricsFragment : gmap string string :=
  {[ "--enable-metrics" := "" ]}.

Definition sparkUIFragment {JB : JobBase} (props : PySparkStreamingJobProperties)
    : gmap string string :=
  match sparkUI props with
  | Some ui =>
      match bucket ui with
      | Some b =>
          {[ "--enable-spark-ui" := "true";
             "--spark-event-logs-path" := s3UrlForObject b (prefix ui) ]}
      | None => ∅
      end
  | None => ∅
  end.

Definition callerFragment (props : JobProperties) : gmap string string :=
  default ∅ (defaultArguments props).

(** The caller's keys that collide with the reserved keys. *)
Definition callerCollisions {JB : JobBase} (props : JobProperties) : list string :=
  match defaultArguments props with
  | Some m => offendingKeys m
  | None => []
  end.

(** Exactly one of worker type and worker count is set. *)
Definition exactlyOneSet (props : JobProperties) : Prop :=
  (is_Some (workerType props) ∧ numberOrWorkers props = None)
  ∨ (workerType props = None ∧ is_Some (numberOrWorkers props)).

(** The Spark UI set-up runs (a bucket is supplied) and the prefix is of
    the wrong format. *)
Definition sparkUIRejects {JB : JobBase} (props : PySparkStreamingJobProperties)
    : bool :=
  match sparkUI props with
  | Some ui => truthy (bucket ui) && negb (validSparkUiPrefix (prefix ui))
  | None => false
  end.

(** The inherited constructor accepts the job in the scope. *)
Definition superAccepts {JB : JobBase} (scope id : string)
    (props : JobProperties) (w : World) : bool :=
  match Job_super scope id (jobName props) (constructs w) with
  | Some _ => true
  | None => false
  end.

(** The timeout, if there is one, is a whole number of minutes. *)
Definition timeoutConverts (props : JobProperties) : bool :=
  match timeout props with
  | Some d =>
      match toMinutes d with
      | Some _ => true
      | None => false
      end
  | None => true
  end.

(** The grants the Spark UI set-up makes. *)
Definition sparkUIGrants {JB : JobBase} (props : PySparkStreamingJobProperties)
    : list (IBucket * IRole * option string) :=
  match sparkUI props with
  | Some ui =>
      match bucket ui with
      | Some b => [(b, role props, cleanSparkUiPrefixForGrant (prefix ui))]
      | None => []
      end
  | None => []
  end.

(** The logging location the Spark UI set-up yields. *)
Definition sparkUILocation (props : PySparkStreamingJobProperties)
    : option SparkUILoggingLocation :=
  match sparkUI props with
  | Some ui =>
      match bucket ui with
      | Some b => Some {| location_prefix := prefix ui; location_bucket := b |}
      | None => None
      end
  | None => None
  end.

(** The message of the worker pairing check. *)
Definition workerPairingMessage : string :=
  "Both workerType and numberOrWorkers must be set".

(** ** Concrete collaborators and inputs

    One instance of the collaborators, for evaluating the constructors on
    concrete inputs: the inherited constructor refuses an empty id and an
    id already used in the scope, and a prefix is accepted unless it
    begins with a slash. *)
Definition sample_base : JobBase := {|
  Job_super := λ scope id physicalName tree,
    if bool_decide (id = "")
       || bool_decide (Exists (λ n, node_scope n = scope ∧ node_id n = id) tree)
    then None
    else Some (tree ++ [{| node_scope := scope; node_id := id;
                           node_physicalName := physicalName |}])%list;
  reservedArgs := {[ "--debug"; "--mode"; "--JOB_NAME" ]};
  validSparkUiPrefix := λ p,
    match p with
    | Some (String "/"%char _) => false
    | _ => true
    end;
  cleanSparkUiPrefixForGrant := λ p, option_map (λ s, s +:+ "*") p;
  s3UrlForObject := λ b key,
    "s3://" +:+ bucketName b +:+ "/" +:+ default "" key;
  setupContinuousLogging := λ _ _,
    {[ "--enable-continuous-cloudwatch-log" := "true" ]};
  codeS3ObjectUrl := λ c, "s3://assets/" +:+ codeKey c;
  resourceRef := λ scope id, scope +:+ "/" +:+ id;
  getResourceNameAttribute := λ ref, ref;
  buildJobArn := λ _ name, "arn:aws:glue:region:account:job/" +:+ name
|}.

Definition glue_role : IRole := {| roleArn := "arn:aws:iam::account:role/glue" |}.

Definition logs_bucket : IBucket := {| bucketName := "logs-bucket" |}.

(** A property bag with only a script and a role. *)
Definition minimal_props : JobProperties := {|
  jobName := None; description := None;
  role := glue_role; script := {| codeKey := "hello_world.py" |};
  glueVersion := None; workerType := None; numberOrWorkers := None;
  maxRetries := None; maxConcurrentRuns := None; timeout := None;
  connections := None; securityConfiguration := None; tags := None;
  defaultArguments := None; continuousLogging := None
|}.

Definition with_defaultArguments (m : gmap string string)
    (p : JobProperties) : JobProperties := {|
  jobName := jobName p; description := description p;
  role := role p; script := script p;
  glueVersion := glueVersion p; workerType := workerType p;
  numberOrWorkers := numberOrWorkers p;
  maxRetries := maxRetries p; maxConcurrentRuns := maxConcurrentRuns p;
  timeout := timeout p; connections := connections p;
  securityConfiguration := securityConfiguration p; tags := tags p;
  defaultArguments := Some m; continuousLogging := continuousLogging p
|}.

Definition with_workers (t : option WorkerType) (n : option Z)
    (p : JobProperties) : JobProperties := {|
  jobName := jobName p; description := description p;
  role := role p; script := script p;
  glueVersion := glueVersion p; workerType := t;
  numberOrWorkers := n;
  maxRetries := maxRetries p; maxConcurrentRuns := maxConcurrentRuns p;
  timeout := timeout p; connections := connections p;
  securityConfiguration := securityConfiguration p; tags := tags p;
  defaultArguments := defaultArguments p;
  continuousLogging := continuousLogging p
|}.

Definition with_continuousLogging (cl : ContinuousLoggingProps)
    (p : JobProperties) : JobProperties := {|
  jobName := jobName p; description := description p;
  role := role p; script := script p;
  glueVersion := glueVersion p; workerType := workerType p;
  numberOrWorkers := numberOrWorkers p;
  maxRetries := maxRetries p; maxConcurrentRuns := maxConcurrentRuns p;
  timeout := timeout p; connections := connections p;
  securityConfiguration := securityConfiguration p; tags := tags p;
  defaultArguments := defaultArguments p;
  continuousLogging := Some cl
|}.

Definition streaming (p : JobProperties) (ui : option SparkUIProps)
    : PySparkStreamingJobProperties :=
  {| base := p; sparkUI := ui; extraPythonFiles := None |}.

Definition logging_on : ContinuousLoggingProps :=
  {| enabled := true; logGroup := None; logStreamPrefix := None;
     conversionPattern := None; quiet := None |}.

Definition sparkUI_logs : SparkUIProps :=
  {| bucket := Some logs_bucket; prefix := Some "logs/" |}.

(** Only a script and a role. *)
Definition props_minimal : PySparkStreamingJobProperties :=
  streaming minimal_props None.

(** Spark UI with a bucket, continuous logging, paired workers and one
    argument of the caller's. *)
Definition props_full : PySparkStreamingJobProperties :=
  streaming
    (with_continuousLogging logging_on
       (with_workers (Some G_1X) (Some 10%Z)
          (with_defaultArguments {[ "--custom" := "1" ]} minimal_props)))
    (Some sparkUI_logs).

(** A worker type without a worker count. *)
Definition props_workerType_only : PySparkStreamingJobProperties :=
  streaming (with_workers (Some G_2X) None minimal_props) None.

(** A reserved key among the caller's arguments. *)
Definition props_reserved : PySparkStreamingJobProperties :=
  streaming
    (with_defaultArguments {[ "--JOB_NAME" := "x"; "--custom" := "1" ]}
       minimal_props)
    None.

(** A reserved key among the caller's arguments, and a Spark UI prefix of
    the wrong format. *)
Definition props_reserved_bad_prefix : PySparkStreamingJobProperties :=
  streaming
    (with_defaultArguments {[ "--JOB_NAME" := "x" ]} minimal_props)
    (Some {| bucket := Some logs_bucket; prefix := Some "/bad" |}).

(** A worker type only, and a reserved key among the caller's arguments. *)
Definition props_workerType_only_reserved : PySparkStreamingJobProperties :=
  streaming
    (with_workers (Some G_2X) None
       (with_defaultArguments {[ "--JOB_NAME" := "x" ]} minimal_props))
    None.



(** Spark UI requested with a prefix and without a bucket. *)
Definition props_sparkUI_no_bucket : PySparkStreamingJobProperties :=
  streaming minimal_props (Some {| bucket := None; prefix := Some "logs/" |}).

(** Spark UI requested with a prefix, and no bucket. *)
Definition sparkUI_no_bucket : SparkUIProps :=
  {| bucket := None; prefix := Some "logs/" |}.

(** Spark UI with a bucket and a prefix of the wrong format. *)
Definition sparkUI_bad_prefix : SparkUIProps :=
  {| bucket := Some logs_bucket; prefix := Some "/bad" |}.

(** Every optional setting given: a worker count and a concurrency limit
    of zero, an empty list of connections, and an argument of the caller's
    under a key the framework sets too. *)
Definition props_detailed : PySparkStreamingJobProperties :=
  streaming
    {| jobName := Some "streamer";
       description := Some "a streaming job";
       role := glue_role;
       script := {| codeKey := "stream.py" |};
       glueVersion := Some V3_0;
       workerType := Some G_1X;
       numberOrWorkers := Some 0%Z;
       maxRetries := Some 2%Z;
       maxConcurrentRuns := Some 0%Z;
       timeout := Some {| amount := 90; timeUnit := Minutes |};
       connections := Some [];
       securityConfiguration :=
         Some {| securityConfigurationName := "sec-config" |};
       tags := Some {[ "team" := "data" ]};
       defaultArguments :=
         Some {[ "--custom" := "1"; "--enable-metrics" := "off" ]};
       continuousLogging := Some logging_on |}
    (Some sparkUI_logs).

(** Two connections and a concurrency limit of three. *)
Definition props_connected : PySparkStreamingJobProperties :=
  streaming
    {| jobName := None; description := None;
       role := glue_role; script := {| codeKey := "stream.py" |};
       glueVersion := None; workerType := None; numberOrWorkers := None;
       maxRetries := None; maxConcurrentRuns := Some 3%Z; timeout := None;
       connections :=
         Some [{| connectionName := "jdbc-a" |};
               {| connectionName := "kafka-b" |}];
       securityConfiguration := None; tags := None;
       defaultArguments := None; continuousLogging := None |}
    None.

(** Spark UI with a bucket, and a reserved key among the caller's
    arguments. *)
Definition props_reserved_with_sparkUI : PySparkStreamingJobProperties :=
  streaming
    (with_defaultArguments {[ "--JOB_NAME" := "x" ]} minimal_props)
    (Some sparkUI_logs).

(** A world in which the id ["Job"] is already used in the scope
    ["Stack"]. *)
Definition world_with_job : World :=
  {| constructs := [{| node_scope := "Stack"; node_id := "Job";
                       node_physicalName := None |}];
     createdBuckets := []; grants := []; attachedManagedPolicies := [];
     emitted := [] |}.

(** A timeout of ninety seconds, which is not a whole number of
    minutes. *)
Definition props_timeout_seconds : PySparkStreamingJobProperties :=
  streaming
    {| jobName := None; description := None;
       role := glue_role; script := {| codeKey := "stream.py" |};
       glueVersion := None; workerType := None; numberOrWorkers := None;
       maxRetries := None; maxConcurrentRuns := None;
       timeout := Some {| amount := 90; timeUnit := Seconds |};
       connections := None; securityConfiguration := None; tags := None;
       defaultArguments := None; continuousLogging := None |}
    None.


(** ** Properties of the merge *)

Lemma spread_union (target : gmap string string) source :
  spread target source = default ∅ source ∪ target.
Proof.
  destruct source as [src|]; simpl; [done|].
  by rewrite (left_id_L ∅ (∪)).
Qed.

(** What the merge means, key by key: the latest fragment that has the key
    gives its value. *)
Lemma ordered_merge_lookup (m : gmap string string) later (k : string) :
  ordered_merge (m :: later) !! k =
    match ordered_merge later !! k with
    | Some v => Some v
    | None => m !! k
    end.
Proof.
  simpl. rewrite lookup_union.
  destruct (ordered_merge later !! k), (m !! k); done.
Qed.

Lemma foldl_spread_ordered_merge sources (acc : gmap string string) :
  foldl spread acc sources = ordered_merge (default ∅ <$> sources) ∪ acc.
Proof.
  revert acc. induction sources as [|s rest IH]; intros acc; simpl.
  - by rewrite (left_id_L ∅ (∪)).
  - rewrite IH, spread_union. by rewrite (assoc_L (∪)).
Qed.

(** An object literal of spread elements is the ordered merge of the
    elements, [undefined] counting as the empty fragment. *)
Lemma spread_all_ordered_merge sources :
  spread_all sources = ordered_merge (default ∅ <$> sources).
Proof.
  unfold spread_all. rewrite foldl_spread_ordered_merge.
  by rewrite (right_id_L ∅ (∪)).
Qed.

Lemma offendingKeys_elem {JB : JobBase} (m : gmap string string) (k : string) :
  k ∈ offendingKeys m ↔ is_Some (m !! k) ∧ k ∈ reservedArgs.
Proof.
  unfold offendingKeys. rewrite elem_of_elements, elem_of_intersection.
  by rewrite elem_of_dom.
Qed.

Lemma offendingKeys_nil {JB : JobBase} (m : gmap string string) :
  offendingKeys m = [] ↔ dom m ∩ reservedArgs = ∅.
Proof.
  unfold offendingKeys. split.
  - intros Hnil. apply elements_empty_inv in Hnil. by apply leibniz_equiv.
  - intros ->. apply elements_empty.
Qed.

(** ** Running the constructors *)

Section Analysis.
Context {JB : JobBase}.

Lemma checkNoReservedArgs_run (props : JobProperties) w :
  checkNoReservedArgs (defaultArguments props) w =
    match callerCollisions props with
    | [] => (Returned (defaultArguments props), w)
    | ks => (Thrown (ReservedArgumentError ks), w)
    end.
Proof.
  unfold callerCollisions, checkNoReservedArgs.
  destruct (defaultArguments props) as [m|]; [|done].
  by destruct (offendingKeys m).
Qed.

Lemma sparkUIFragment_inserts b (p : option string) :
  (<["--spark-event-logs-path" := s3UrlForObject b p]>
     (<["--enable-spark-ui" := "true"]> ∅) : gmap string string)
  = {[ "--enable-spark-ui" := "true";
       "--spark-event-logs-path" := s3UrlForObject b p ]}.
Proof. by rewrite insert_insert_ne. Qed.

Ltac run_constructor :=
  unfold pySparkStreamingJob_constructor, super_call, setupSparkUI,
    validateSparkUiPrefix, superAccepts, timeoutConverts,
    sparkUIRejects, sparkUIGrants, sparkUIFragment, sparkUILocation,
    continuousLoggingFragment, metricsFragment, workerPairingMessage, bind;
  simpl;
  rewrite ?checkNoReservedArgs_run.

(** The cases of a run, in the order of the constructor: the Spark UI
    set-up, the reserved-argument check, the worker pairing check and the
    conversion of the timeout. *)
Ltac run_cases props :=
  let ui := fresh "ui" in
  let b := fresh "b" in
  let d := fresh "d" in
  destruct (sparkUI props) as [ui|]; simpl in *;
  [destruct (bucket ui) as [b|]; simpl in *;
   [destruct (validSparkUiPrefix (prefix ui)); simpl in *|]|];
  rewrite ?checkNoReservedArgs_run;
  try (destruct (callerCollisions props); simpl in *;
       [destruct (workerPairingBroken props); simpl in *;
        [|destruct (timeout props) as [d|]; simpl in *;
          [destruct (toMinutes d); simpl in *|]]|]).

Lemma pySparkStreamingJob_refused scope id
    (props : PySparkStreamingJobProperties) w :
  superAccepts scope id props w = false →
  pySparkStreamingJob_constructor scope id props w
  = (Thrown (ConstructError scope id), w).
Proof.
  run_constructor.
  by destruct (Job_super scope id (jobName props) (constructs w)).
Qed.

Lemma pySparkStreamingJob_rejected scope id
    (props : PySparkStreamingJobProperties) w :
  superAccepts scope id props w = true →
  sparkUIRejects props = true →
  ∃ ui, sparkUI props = Some ui
        ∧ fst (pySparkStreamingJob_constructor scope id props w)
          = Thrown (ValidationError (prefix ui)).
Proof.
  run_constructor.
  destruct (Job_super scope id (jobName props) (constructs w)); [|done].
  intros _ Hrej. simpl.
  destruct (sparkUI props) as [ui|]; [|done].
  exists ui. split; [done|].
  destruct (bucket ui); simpl in *; [|done].
  by destruct (validSparkUiPrefix (prefix ui)).
Qed.

Lemma pySparkStreamingJob_collision scope id
    (props : PySparkStreamingJobProperties) w :
  superAccepts scope id props w = true →
  sparkUIRejects props = false →
  callerCollisions props ≠ [] →
  fst (pySparkStreamingJob_constructor scope id props w)
  = Thrown (ReservedArgumentError (callerCollisions props)).
Proof.
  run_constructor.
  destruct (Job_super scope id (jobName props) (constructs w)); [|done].
  intros _ Hrej Hcol. simpl. run_cases props; done.
Qed.

Lemma pySparkStreamingJob_unpaired scope id
    (props : PySparkStreamingJobProperties) w :
  superAccepts scope id props w = true →
  sparkUIRejects props = false →
  callerCollisions props = [] →
  workerPairingBroken props = true →
  fst (pySparkStreamingJob_constructor scope id props w)
  = Thrown (ConfigurationError workerPairingMessage).
Proof.
  run_constructor.
  destruct (Job_super scope id (jobName props) (constructs w)); [|done].
  intros _ Hrej Hcol Hbroken. simpl. run_cases props; done.
Qed.

Lemma pySparkStreamingJob_unconverted scope id
    (props : PySparkStreamingJobProperties) w d :
  superAccepts scope id props w = true →
  sparkUIRejects props = false →
  callerCollisions props = [] →
  workerPairingBroken props = false →
  timeout props = Some d →
  toMinutes d = None →
  fst (pySparkStreamingJob_constructor scope id props w)
  = Thrown (DurationError d).
Proof.
  run_constructor.
  destruct (Job_super scope id (jobName props) (constructs w)); [|done].
  intros _ Hrej Hcol Hbroken Hd Hconv. simpl.
  destruct (sparkUI props) as [ui|]; simpl in *;
    [destruct (bucket ui) as [b|]; simpl in *;
     [destruct (validSparkUiPrefix (prefix ui)); simpl in *; [|done]|]|];
    rewrite ?checkNoReservedArgs_run, Hcol, Hbroken; simpl;
    by rewrite Hd, Hconv.
Qed.

(** The successful run: what is emitted, what the instance holds, and how
    the world changed. *)
Lemma pySparkStreamingJob_resolved scope id
    (props : PySparkStreamingJobProperties) w :
  superAccepts scope id props w = true →
  sparkUIRejects props = false →
  callerCollisions props = [] →
  workerPairingBroken props = false →
  timeoutConverts props = true →
  ∃ job cfn w',
    pySparkStreamingJob_constructor scope id props w = (Returned job, w')
    ∧ emitted w' = (emitted w ++ [(scope +:+ "/" +:+ id, cfn)])%list
    ∧ grants w' = (grants w ++ sparkUIGrants props)%list
    ∧ cfn_defaultArguments cfn
      = spread_all [Some (executableArguments props);
                    Some (continuousLoggingFragment props);
                    Some metricsFragment;
                    Some (sparkUIFragment props);
                    defaultArguments props]
    ∧ cfn_workerType cfn = Some (default G_2X (workerType props))
    ∧ cfn_numberOfWorkers cfn = numberOrWorkers props
    ∧ this_role job = role props
    ∧ this_grantPrincipal job = role props
    ∧ this_sparkUILoggingLocation job = sparkUILocation props
    ∧ is_Some (this_jobName job)
    ∧ is_Some (this_jobArn job).
Proof.
  run_constructor.
  destruct (Job_super scope id (jobName props) (constructs w)); [|done].
  intros _ Hrej Hcol Hbroken Hconv. simpl.
  run_cases props; try done;
    do 3 eexists; (split; [reflexivity|]); simpl;
    rewrite ?sparkUIFragment_inserts, ?app_nil_r;
    unfold spread_all; simpl; rewrite ?(left_id_L ∅ (∪));
    repeat split; try reflexivity; by eexists.
Qed.

(** Whatever the outcome, the constructor creates no bucket (the fallback
    of [setupSparkUI] needs a missing bucket, and the constructor calls
    [setupSparkUI] only with a bucket), attaches no managed policy, and
    makes no grant when the Spark UI set-up has none to make. *)
Lemma pySparkStreamingJob_world scope id props w :
  let w' := snd (pySparkStreamingJob_constructor scope id props w) in
  createdBuckets w' = createdBuckets w
  ∧ attachedManagedPolicies w' = attachedManagedPolicies w
  ∧ (sparkUIGrants props = [] → grants w' = grants w).
Proof.
  run_constructor.
  destruct (Job_super scope id (jobName props) (constructs w)); [|done].
  simpl. run_cases props; done.
Qed.

(** A run that returns passed the five checks. *)
Lemma pySparkStreamingJob_returned scope id props w job w' :
  pySparkStreamingJob_constructor scope id props w = (Returned job, w') →
  superAccepts scope id props w = true
  ∧ sparkUIRejects props = false
  ∧ callerCollisions props = []
  ∧ workerPairingBroken props = false
  ∧ timeoutConverts props = true.
Proof.
  intros Hrun.
  destruct (superAccepts scope id props w) eqn:Hacc.
  2: { rewrite (pySparkStreamingJob_refused scope id props w Hacc) in Hrun.
       done. }
  split; [done|].
  destruct (sparkUIRejects props) eqn:Hrej.
  { destruct (pySparkStreamingJob_rejected scope id props w Hacc Hrej)
      as (ui & _ & Hthrown). rewrite Hrun in Hthrown. done. }
  split; [done|].
  destruct (callerCollisions props) as [|k ks] eqn:Hcol.
  2: { assert (callerCollisions props ≠ []) as Hne by (by rewrite Hcol).
       pose proof (pySparkStreamingJob_collision scope id props w Hacc Hrej
                     Hne) as Hthrown.
       rewrite Hrun in Hthrown. done. }
  split; [done|].
  destruct (workerPairingBroken props) eqn:Hbroken.
  { pose proof (pySparkStreamingJob_unpaired scope id props w Hacc Hrej Hcol
                  Hbroken) as Hthrown.
    rewrite Hrun in Hthrown. done. }
  split; [done|].
  unfold timeoutConverts.
  destruct (timeout props) as [d|] eqn:Hd; [|done].
  destruct (toMinutes d) eqn:Hconv; [done|].
  pose proof (pySparkStreamingJob_unconverted scope id props w d Hacc Hrej
                Hcol Hbroken Hd Hconv) as Hthrown.
  rewrite Hrun in Hthrown. done.
Qed.

(** The whole of the [RayJob] constructor: the inherited constructor, the
    reserved-argument check and nothing else. *)
Lemma RayJob_run scope id (props : RayJobProperties) w :
  RayJob_constructor scope id props w =
    match Job_super scope id (jobName props) (constructs w) with
    | None => (Thrown (ConstructError scope id), w)
    | Some tree =>
        match callerCollisions props with
        | [] => (Returned {| this_jobArn := None;
                             this_jobName := None;
                             this_role := role props;
                             this_grantPrincipal := role props;
                             this_sparkUILoggingLocation := None |},
                 with_constructs tree w)
        | ks => (Thrown (ReservedArgumentError ks), with_constructs tree w)
        end
    end.
Proof.
  unfold RayJob_constructor, super_call, bind.
  destruct (Job_super scope id (jobName props) (constructs w)); [|done].
  rewrite checkNoReservedArgs_run.
  by destruct (callerCollisions props).
Qed.

Lemma workerPairingBroken_exactlyOneSet (props : JobProperties) :
  workerPairingBroken props = true ↔ exactlyOneSet props.
Proof.
  unfold workerPairingBroken, exactlyOneSet, defined, truthy.
  destruct (workerType props) as [t|], (numberOrWorkers props) as [n|];
    simpl;
    (split; [intros Hb; try done | intros [[[? ?] ?]|[? [? ?]]]; done]).
  - left. split; [by eexists | done].
  - right. split; [done | by eexists].
Qed.

End Analysis.

(** ** The claims *)

Section Claims.
Context {JB : JobBase}.

Lemma executableArguments_language props :
  executableArguments props = variantRequiredArgs.
Proof.
  unfold executableArguments, variantRequiredArgs.
  destruct (extraPythonFiles props) as [files|]; simpl;
    [destruct (0 <? length files)%nat|]; done.
Qed.

(** The emitted arguments of a run that returns, as the ordered merge of
    the five fragments. *)
Lemma pySparkStreamingJob_merged scope id props w job w' :
  pySparkStreamingJob_constructor scope id props w = (Returned job, w') →
  ∃ cfn,
    emitted w' = (emitted w ++ [(scope +:+ "/" +:+ id, cfn)])%list
    ∧ cfn_defaultArguments cfn
      = ordered_merge [variantRequiredArgs;
                       continuousLoggingFragment props;
                       metricsFragment;
                       sparkUIFragment props;
                       callerFragment props]
    ∧ cfn_workerType cfn = Some (default G_2X (workerType props))
    ∧ cfn_numberOfWorkers cfn = numberOrWorkers props.
Proof.
  intros Hrun.
  destruct (pySparkStreamingJob_returned _ _ _ _ _ _ Hrun)
    as (Hacc & Hrej & Hcol & Hbroken & Hconv).
  destruct (pySparkStreamingJob_resolved scope id props w Hacc Hrej Hcol
              Hbroken Hconv)
    as (job0 & cfn & w0 & Hrun0 & Hemit & _ & Hargs & Hwt & Hn & _).
  rewrite Hrun in Hrun0. injection Hrun0 as <- <-.
  exists cfn. repeat split; try done.
  rewrite Hargs, spread_all_ordered_merge. simpl.
  by rewrite executableArguments_language.
Qed.

(** The merged arguments, key by key, from the highest precedence down. *)
Lemma ordered_merge_five (a b c d e : gmap string string) (k : string) :
  ordered_merge [a; b; c; d; e] !! k =
    match e !! k with
    | Some v => Some v
    | None =>
        match d !! k with
        | Some v => Some v
        | None =>
            match c !! k with
            | Some v => Some v
            | None =>
                match b !! k with
                | Some v => Some v
                | None => a !! k
                end
            end
        end
    end.
Proof.
  rewrite !ordered_merge_lookup. simpl. rewrite lookup_empty.
  by destruct (e !! k), (d !! k), (c !! k), (b !! k).
Qed.

(** C1.  For every successfully constructed PySpark Streaming job, the
    arguments handed to the emitted [CfnJob] are the ordered merge, later
    fragments winning on a key collision, of the variant-required
    arguments, the continuous-logging arguments, the metrics arguments,
    the Spark UI arguments and the caller's [defaultArguments]. *)
Theorem pySparkStreamingJob_defaultArguments_precedence
    scope id props w job w' :
  pySparkStreamingJob_constructor scope id props w = (Returned job, w') →
  ∃ cfn,
    emitted w' = (emitted w ++ [(scope +:+ "/" +:+ id, cfn)])%list
    ∧ cfn_defaultArguments cfn
      = ordered_merge [variantRequiredArgs;
                       continuousLoggingFragment props;
                       metricsFragment;
                       sparkUIFragment props;
                       callerFragment props].
Proof.
  intros Hrun.
  destruct (pySparkStreamingJob_merged _ _ _ _ _ _ Hrun)
    as (cfn & Hemit & Hargs & _).
  by exists cfn.
Qed.

(** C9.  For every successfully constructed PySpark Streaming job, the
    merged arguments have the key ["--enable-metrics"], whether continuous
    logging is enabled or not: with the empty string as its value, unless
    the caller's [defaultArguments] set the key, whose value then
    stands. *)
Theorem pySparkStreamingJob_enable_metrics scope id props w job w' :
  pySparkStreamingJob_constructor scope id props w = (Returned job, w') →
  ∃ cfn,
    emitted w' = (emitted w ++ [(scope +:+ "/" +:+ id, cfn)])%list
    ∧ cfn_defaultArguments cfn !! "--enable-metrics"
      = Some (default "" (callerFragment props !! "--enable-metrics")).
Proof.
  intros Hrun.
  destruct (pySparkStreamingJob_merged _ _ _ _ _ _ Hrun)
    as (cfn & Hemit & Hargs & _).
  exists cfn. split; [done|].
  rewrite Hargs, ordered_merge_five.
  destruct (callerFragment props !! "--enable-metrics"); [done|].
  assert (sparkUIFragment props !! "--enable-metrics" = None) as ->.
  { unfold sparkUIFragment.
    destruct (sparkUI props) as [ui|]; [|done].
    destruct (bucket ui); [|done].
    by rewrite !lookup_insert_ne. }
  done.
Qed.

(** C10.  Whatever the properties, [executableArguments] returns exactly
    the one entry ["--job-language"] to ["python"]; [extraPythonFiles]
    changes nothing. *)
Theorem executableArguments_singleton props :
  executableArguments props = {[ "--job-language" := "python" ]}.
Proof.
  unfold executableArguments.
  destruct (extraPythonFiles props) as [files|]; simpl;
    [destruct (0 <? length files)%nat|]; done.
Qed.

(** What [construct] does for the Ray variant. *)
Lemma construct_Ray scope id (props : PySparkStreamingJobProperties) w :
  construct RayVariant scope id props w =
    match Job_super scope id (jobName props) (constructs w) with
    | None => (Thrown (ConstructError scope id), w)
    | Some tree =>
        match callerCollisions props with
        | [] => (Returned {| this_jobArn := None;
                             this_jobName := None;
                             this_role := role props;
                             this_grantPrincipal := role props;
                             this_sparkUILoggingLocation := None |},
                 with_constructs tree w)
        | ks => (Thrown (ReservedArgumentError ks), with_constructs tree w)
        end
    end.
Proof. apply RayJob_run. Qed.

Lemma callerCollisions_elem (props : JobProperties) (k : string) :
  k ∈ callerCollisions props
  ↔ ∃ m, defaultArguments props = Some m ∧ is_Some (m !! k)
         ∧ k ∈ reservedArgs.
Proof.
  unfold callerCollisions.
  destruct (defaultArguments props) as [m|].
  - rewrite offendingKeys_elem. split.
    + intros [Hk Hr]. by exists m.
    + intros (m' & [= <-] & Hk & Hr). done.
  - split; [by intros ?%elem_of_nil | by intros (m & ? & _)].
Qed.

(** C2 (amended).  For either variant, a reserved key among the caller's
    [defaultArguments] makes the construction fail, so it is never
    silently overridden.  The failure is a [ReservedArgumentError] naming
    the offending keys whenever the check is reached; it is not reached
    when the inherited constructor refuses the job in the scope, or, for
    the PySpark Streaming variant, when the Spark UI set-up that runs
    earlier rejects the prefix with a [ValidationError].  The check looks
    at the caller's map only: a [ReservedArgumentError] always names keys
    of that map, however the framework's own fragments are keyed. *)
Theorem reserved_arguments_checked v scope id
    (props : PySparkStreamingJobProperties) w :
  (callerCollisions props ≠ [] →
     (∀ job w', construct v scope id props w ≠ (Returned job, w'))
     ∧ (superAccepts scope id props w = false →
        fst (construct v scope id props w)
        = Thrown (ConstructError scope id))
     ∧ (superAccepts scope id props w = true →
        v = PySparkStreamingVariant →
        sparkUIRejects props = true →
        ∃ p, fst (construct v scope id props w)
             = Thrown (ValidationError p))
     ∧ (superAccepts scope id props w = true →
        (v = PySparkStreamingVariant → sparkUIRejects props = false) →
        fst (construct v scope id props w)
        = Thrown (ReservedArgumentError (callerCollisions props))))
  ∧ (∀ ks, fst (construct v scope id props w)
             = Thrown (ReservedArgumentError ks) →
       ks ≠ [] ∧ ks = callerCollisions props)
  ∧ (∀ k, k ∈ callerCollisions props
          ↔ ∃ m, defaultArguments props = Some m ∧ is_Some (m !! k)
                 ∧ k ∈ reservedArgs).
Proof.
  split; [|split; [|apply callerCollisions_elem]].
  - intros Hcol. destruct v.
    + simpl. split; [|split; [|split]].
      * intros job w' Hrun.
        destruct (pySparkStreamingJob_returned _ _ _ _ _ _ Hrun)
          as (_ & _ & Hnil & _). done.
      * intros Hacc.
        by rewrite (pySparkStreamingJob_refused scope id props w Hacc).
      * intros Hacc _ Hrej.
        destruct (pySparkStreamingJob_rejected scope id props w Hacc Hrej)
          as (ui & _ & Hthrown). eauto.
      * intros Hacc Hrej.
        apply (pySparkStreamingJob_collision scope id props w Hacc
                 (Hrej eq_refl) Hcol).
    + unfold superAccepts. rewrite construct_Ray.
      destruct (Job_super scope id (jobName props) (constructs w));
        destruct (callerCollisions props); try done;
        (split; [done|]); (split; [done|]); split; done.
  - intros ks Hthrown. destruct v.
    + simpl in Hthrown.
      destruct (superAccepts scope id props w) eqn:Hacc.
      2: { rewrite (pySparkStreamingJob_refused scope id props w Hacc)
             in Hthrown. done. }
      destruct (sparkUIRejects props) eqn:Hrej.
      { destruct (pySparkStreamingJob_rejected scope id props w Hacc Hrej)
          as (ui & _ & Hval).
        rewrite Hval in Hthrown. done. }
      destruct (callerCollisions props) as [|k0 ks0] eqn:Hcol.
      * destruct (workerPairingBroken props) eqn:Hbroken.
        { rewrite (pySparkStreamingJob_unpaired scope id props w Hacc Hrej
                     Hcol Hbroken) in Hthrown. done. }
        destruct (timeoutConverts props) eqn:Hconv.
        { destruct (pySparkStreamingJob_resolved scope id props w Hacc Hrej
                      Hcol Hbroken Hconv) as (job & cfn & w' & Hrun & _).
          rewrite Hrun in Hthrown. done. }
        unfold timeoutConverts in Hconv.
        destruct (timeout props) as [d|] eqn:Hd; [|done].
        destruct (toMinutes d) eqn:Hmin; [done|].
        rewrite (pySparkStreamingJob_unconverted scope id props w d Hacc
                   Hrej Hcol Hbroken Hd Hmin) in Hthrown. done.
      * assert (callerCollisions props ≠ []) as Hne by (by rewrite Hcol).
        rewrite (pySparkStreamingJob_collision scope id props w Hacc Hrej
                   Hne) in Hthrown.
        rewrite Hcol in Hthrown. by injection Hthrown as <-.
    + rewrite construct_Ray in Hthrown.
      destruct (Job_super scope id (jobName props) (constructs w));
        [|done].
      destruct (callerCollisions props); [done|].
      by injection Hthrown as <-.
Qed.

(** C3 (amended).  For the PySpark Streaming variant, if exactly one of
    [workerType] and [numberOrWorkers] is set, the construction never
    succeeds; when the steps before the worker pairing check pass (the
    inherited constructor accepts the job, the Spark UI set-up does not
    reject the prefix, no key of the caller's is reserved), it fails at
    the check, with the message
    ["Both workerType and numberOrWorkers must be set"]. *)
Theorem pySparkStreamingJob_worker_pairing scope id
    (props : PySparkStreamingJobProperties) w :
  exactlyOneSet props →
  (∀ job w',
     pySparkStreamingJob_constructor scope id props w ≠ (Returned job, w'))
  ∧ (superAccepts scope id props w = true →
     sparkUIRejects props = false →
     callerCollisions props = [] →
     fst (pySparkStreamingJob_constructor scope id props w)
     = Thrown (ConfigurationError
                 "Both workerType and numberOrWorkers must be set")).
Proof.
  intros Hone%workerPairingBroken_exactlyOneSet. split.
  - intros job w' Hrun.
    destruct (pySparkStreamingJob_returned _ _ _ _ _ _ Hrun)
      as (_ & _ & _ & Hbroken & _).
    congruence.
  - intros Hacc Hrej Hcol.
    apply (pySparkStreamingJob_unpaired scope id props w Hacc Hrej Hcol
             Hone).
Qed.


(** C5 (the code at the failing input).  With Spark UI requested and no
    bucket supplied, the constructor never reaches [setupSparkUI]: no
    bucket is created, no grant is made, and the instance gets no logging
    location. *)
Theorem pySparkStreamingJob_sparkUI_without_bucket
    scope id props w ui job w' :
  sparkUI props = Some ui →
  bucket ui = None →
  pySparkStreamingJob_constructor scope id props w = (Returned job, w') →
  createdBuckets w' = createdBuckets w
  ∧ grants w' = grants w
  ∧ this_sparkUILoggingLocation job = None
  ∧ sparkUIFragment props = ∅.
Proof.
  intros Hui Hb Hrun.
  pose proof (pySparkStreamingJob_world scope id props w) as Hw.
  rewrite Hrun in Hw. destruct Hw as (Hbuckets & _ & Hgrants).
  split; [done|]. split.
  { apply Hgrants. unfold sparkUIGrants. by rewrite Hui, Hb. }
  destruct (pySparkStreamingJob_returned _ _ _ _ _ _ Hrun)
    as (Hacc & Hrej & Hcol & Hbroken & Hconv).
  destruct (pySparkStreamingJob_resolved scope id props w Hacc Hrej Hcol
              Hbroken Hconv)
    as (job0 & cfn & w0 & Hrun0 & _ & _ & _ & _ & _ & _ & _ & Hloc & _).
  rewrite Hrun in Hrun0. injection Hrun0 as <- <-.
  split.
  - rewrite Hloc. unfold sparkUILocation. by rewrite Hui, Hb.
  - unfold sparkUIFragment. by rewrite Hui, Hb.
Qed.

(** C6 (amended).  If both [workerType] and [numberOrWorkers] are unset,
    the configuration handed to the emitter names the worker type [G_2X],
    the variant's default, and no number of workers. *)
Theorem pySparkStreamingJob_default_worker_sizing scope id props w job w' :
  pySparkStreamingJob_constructor scope id props w = (Returned job, w') →
  workerType props = None →
  numberOrWorkers props = None →
  ∃ cfn,
    emitted w' = (emitted w ++ [(scope +:+ "/" +:+ id, cfn)])%list
    ∧ cfn_workerType cfn = Some G_2X
    ∧ cfn_numberOfWorkers cfn = None.
Proof.
  intros Hrun Hwt Hn.
  destruct (pySparkStreamingJob_merged _ _ _ _ _ _ Hrun)
    as (cfn & Hemit & _ & Hcwt & Hcn).
  exists cfn. rewrite Hcwt, Hcn, Hwt, Hn. done.
Qed.

(** C7 (the code at the failing input).  A [RayJob] construction that
    returns has done nothing but the inherited constructor's registration
    of the job: it has emitted nothing, and has left the job name and the
    ARN unassigned. *)
Theorem RayJob_emits_nothing scope id (props : RayJobProperties) w job w' :
  RayJob_constructor scope id props w = (Returned job, w') →
  (∃ tree, Job_super scope id (jobName props) (constructs w) = Some tree
           ∧ w' = with_constructs tree w)
  ∧ emitted w' = emitted w
  ∧ this_jobName job = None
  ∧ this_jobArn job = None.
Proof.
  rewrite RayJob_run.
  destruct (Job_super scope id (jobName props) (constructs w)) as [tree|];
    [|done].
  destruct (callerCollisions props); [|done].
  intros [= <- <-]. split; [by exists tree|]. done.
Qed.

(** C8.  For every constructed job of either variant, the object literal
    after the comma of the role assignment has no effect: the role field
    is the caller's role, the grant principal is that same role, and the
    constructor attaches no managed policy. *)
Theorem role_assignment_literal_inert v scope id
    (props : PySparkStreamingJobProperties) w job w' :
  construct v scope id props w = (Returned job, w') →
  fst (assign_role props) = role props
  ∧ this_role job = role props
  ∧ this_grantPrincipal job = this_role job
  ∧ attachedManagedPolicies w' = attachedManagedPolicies w.
Proof.
  intros Hrun. split; [done|]. destruct v.
  - simpl in Hrun.
    pose proof (pySparkStreamingJob_world scope id props w) as Hw.
    rewrite Hrun in Hw. destruct Hw as (_ & Hpol & _).
    destruct (pySparkStreamingJob_returned _ _ _ _ _ _ Hrun)
      as (Hacc & Hrej & Hcol & Hbroken & Hconv).
    destruct (pySparkStreamingJob_resolved scope id props w Hacc Hrej Hcol
                Hbroken Hconv)
      as (job0 & cfn & w0 & Hrun0 & _ & _ & _ & _ & _ & Hrole & Hgp & _).
    rewrite Hrun in Hrun0. injection Hrun0 as <- <-.
    by rewrite Hgp, Hrole.
  - rewrite construct_Ray in Hrun.
    destruct (Job_super scope id (jobName props) (constructs w)); [|done].
    destruct (callerCollisions props); [|done].
    by injection Hrun as <- <-.
Qed.

End Claims.

(** ** The claims on concrete jobs

    The constructors run on the sample collaborators, in the scope
    ["Stack"], on an empty world. *)

Ltac returns := vm_compute; eexists _, _; reflexivity.

(** C1 on a job with every fragment present. *)
Lemma pySparkStreamingJob_defaultArguments_precedence_witness :
  ∃ job w',
    pySparkStreamingJob_constructor (JB:=sample_base) "Stack" "Job"
      props_full empty_world = (Returned job, w')
    ∧ ∃ cfn,
        emitted w' = [("Stack/Job", cfn)]
        ∧ cfn_defaultArguments cfn
          = ordered_merge
              [variantRequiredArgs;
               continuousLoggingFragment (JB:=sample_base) props_full;
               metricsFragment;
               sparkUIFragment (JB:=sample_base) props_full;
               callerFragment props_full].
Proof.
  assert (∃ job w',
            pySparkStreamingJob_constructor (JB:=sample_base) "Stack" "Job"
              props_full empty_world = (Returned job, w'))
    as (job & w' & Hrun) by returns.
  exists job, w'. split; [exact Hrun|].
  exact (pySparkStreamingJob_defaultArguments_precedence
           (JB:=sample_base) "Stack" "Job" props_full empty_world job w'
           Hrun).
Defined.

(** C9 on a job with continuous logging enabled, and on one without. *)
Lemma pySparkStreamingJob_enable_metrics_witness :
  (∃ job w',
     pySparkStreamingJob_constructor (JB:=sample_base) "Stack" "Job"
       props_full empty_world = (Returned job, w')
     ∧ ∃ cfn,
         emitted w' = [("Stack/Job", cfn)]
         ∧ cfn_defaultArguments cfn !! "--enable-metrics" = Some "")
  ∧ (∃ job w',
       pySparkStreamingJob_constructor (JB:=sample_base) "Stack" "Job"
         props_minimal empty_world = (Returned job, w')
       ∧ ∃ cfn,
           emitted w' = [("Stack/Job", cfn)]
           ∧ cfn_defaultArguments cfn !! "--enable-metrics" = Some "").
Proof.
  split.
  - assert (∃ job w',
              pySparkStreamingJob_constructor (JB:=sample_base) "Stack" "Job"
                props_full empty_world = (Returned job, w'))
      as (job & w' & Hrun) by returns.
    exists job, w'. split; [exact Hrun|].
    exact (pySparkStreamingJob_enable_metrics
             (JB:=sample_base) "Stack" "Job" props_full empty_world job w'
             Hrun).
  - assert (∃ job w',
              pySparkStreamingJob_constructor (JB:=sample_base) "Stack" "Job"
                props_minimal empty_world = (Returned job, w'))
      as (job & w' & Hrun) by returns.
    exists job, w'. split; [exact Hrun|].
    exact (pySparkStreamingJob_enable_metrics
             (JB:=sample_base) "Stack" "Job" props_minimal empty_world job w'
             Hrun).
Defined.

(** C2 on a caller map with the reserved key ["--JOB_NAME"], for both
    variants. *)
Lemma reserved_arguments_checked_witness :
  callerCollisions (JB:=sample_base) props_reserved ≠ []
  ∧ (∀ v,
       (∀ job w',
          construct (JB:=sample_base) v "Stack" "Job" props_reserved
            empty_world ≠ (Returned job, w'))
       ∧ fst (construct (JB:=sample_base) v "Stack" "Job" props_reserved
                empty_world)
         = Thrown (ReservedArgumentError ["--JOB_NAME"])).
Proof.
  assert (callerCollisions (JB:=sample_base) props_reserved ≠ []) as Hcol
    by (vm_compute; discriminate).
  split; [exact Hcol|]. intros v.
  destruct (reserved_arguments_checked (JB:=sample_base) v "Stack" "Job"
              props_reserved empty_world) as (Hfails & _ & _).
  destruct (Hfails Hcol) as (Hnever & _ & _ & Hreserved).
  split; [exact Hnever|].
  rewrite Hreserved; [vm_compute; reflexivity | vm_compute; reflexivity
                     | intros _; vm_compute; reflexivity].
Defined.

(** C2 as stated fails: here the caller's map has a reserved key, and the
    construction fails with another error: for the PySpark Streaming
    variant with the [ValidationError] of the Spark UI set-up, which runs
    before the reserved-argument check, and for the Ray variant, in a
    scope where the id is taken, with the error of the inherited
    constructor. *)
Lemma reserved_arguments_counterexample :
  callerCollisions (JB:=sample_base) props_reserved_bad_prefix
    = ["--JOB_NAME"]
  ∧ fst (pySparkStreamingJob_constructor (JB:=sample_base) "Stack" "Job"
           props_reserved_bad_prefix empty_world)
    = Thrown (ValidationError (Some "/bad"))
  ∧ callerCollisions (JB:=sample_base) props_reserved = ["--JOB_NAME"]
  ∧ RayJob_constructor (JB:=sample_base) "Stack" "Job" props_reserved
      world_with_job
    = (Thrown (ConstructError "Stack" "Job"), world_with_job).
Proof. repeat split; vm_compute; reflexivity. Qed.

(** C3 on a job with a worker type and no worker count. *)
Lemma pySparkStreamingJob_worker_pairing_witness :
  exactlyOneSet props_workerType_only
  ∧ (∀ job w',
       pySparkStreamingJob_constructor (JB:=sample_base) "Stack" "Job"
         props_workerType_only empty_world ≠ (Returned job, w'))
  ∧ fst (pySparkStreamingJob_constructor (JB:=sample_base) "Stack" "Job"
           props_workerType_only empty_world)
    = Thrown (ConfigurationError
                "Both workerType and numberOrWorkers must be set").
Proof.
  assert (exactlyOneSet props_workerType_only) as Hone
    by (left; split; [by eexists | reflexivity]).
  split; [exact Hone|].
  destruct (pySparkStreamingJob_worker_pairing (JB:=sample_base)
              "Stack" "Job" props_workerType_only empty_world Hone)
    as (Hnever & Hthrown).
  split; [exact Hnever|].
  apply Hthrown; vm_compute; reflexivity.
Defined.

(** C3 as stated fails four ways: the message of the PySpark Streaming
    check is another string; a reserved key is reported before the worker
    pairing is looked at; in a scope where the id is taken the inherited
    constructor throws first; and the Ray constructor has no worker
    pairing check, so it returns. *)
Lemma worker_pairing_counterexample :
  exactlyOneSet props_workerType_only
  ∧ (∃ message,
       fst (pySparkStreamingJob_constructor (JB:=sample_base) "Stack" "Job"
              props_workerType_only empty_world)
       = Thrown (ConfigurationError message)
       ∧ message ≠ "both workerType and numberOfWorkers must be set")
  ∧ exactlyOneSet props_workerType_only_reserved
  ∧ fst (pySparkStreamingJob_constructor (JB:=sample_base) "Stack" "Job"
           props_workerType_only_reserved empty_world)
    = Thrown (ReservedArgumentError ["--JOB_NAME"])
  ∧ fst (pySparkStreamingJob_constructor (JB:=sample_base) "Stack" "Job"
           props_workerType_only world_with_job)
    = Thrown (ConstructError "Stack" "Job")
  ∧ (∃ job w',
       RayJob_constructor (JB:=sample_base) "Stack" "Ray"
         props_workerType_only empty_world
       = (Returned job, w')).
Proof.
  split; [left; split; [by eexists | reflexivity]|].
  split; [eexists; split; [vm_compute; reflexivity | discriminate]|].
  split; [left; split; [by eexists | reflexivity]|].
  split; [vm_compute; reflexivity|].
  split; [vm_compute; reflexivity|].
  eexists _, _. vm_compute. reflexivity.
Qed.



(** C5 at the failing input: Spark UI requested with the prefix
    ["logs/"], no bucket supplied. *)
Lemma pySparkStreamingJob_sparkUI_without_bucket_witness :
  ∃ job w',
    pySparkStreamingJob_constructor (JB:=sample_base) "Stack" "Job"
      props_sparkUI_no_bucket empty_world = (Returned job, w')
    ∧ createdBuckets w' = []
    ∧ grants w' = []
    ∧ this_sparkUILoggingLocation job = None
    ∧ sparkUIFragment (JB:=sample_base) props_sparkUI_no_bucket = ∅.
Proof.
  assert (∃ job w',
            pySparkStreamingJob_constructor (JB:=sample_base) "Stack" "Job"
              props_sparkUI_no_bucket empty_world = (Returned job, w'))
    as (job & w' & Hrun) by returns.
  exists job, w'. split; [exact Hrun|].
  exact (pySparkStreamingJob_sparkUI_without_bucket (JB:=sample_base)
           "Stack" "Job" props_sparkUI_no_bucket empty_world
           {| bucket := None; prefix := Some "logs/" |} job w'
           eq_refl eq_refl Hrun).
Defined.

(** C6 on a job with only a script and a role. *)
Lemma pySparkStreamingJob_default_worker_sizing_witness :
  ∃ job w',
    pySparkStreamingJob_constructor (JB:=sample_base) "Stack" "Job"
      props_minimal empty_world = (Returned job, w')
    ∧ ∃ cfn,
        emitted w' = [("Stack/Job", cfn)]
        ∧ cfn_workerType cfn = Some G_2X
        ∧ cfn_numberOfWorkers cfn = None.
Proof.
  assert (∃ job w',
            pySparkStreamingJob_constructor (JB:=sample_base) "Stack" "Job"
              props_minimal empty_world = (Returned job, w'))
    as (job & w' & Hrun) by returns.
  exists job, w'. split; [exact Hrun|].
  exact (pySparkStreamingJob_default_worker_sizing (JB:=sample_base)
           "Stack" "Job" props_minimal empty_world job w' Hrun
           eq_refl eq_refl).
Defined.

(** C6 as stated fails: with both unset, the emitted configuration names
    a worker type. *)
Lemma worker_sizing_counterexample :
  workerType props_minimal = None
  ∧ numberOrWorkers props_minimal = None
  ∧ ∃ job w' cfn,
      pySparkStreamingJob_constructor (JB:=sample_base) "Stack" "Job"
        props_minimal empty_world = (Returned job, w')
      ∧ emitted w' = [("Stack/Job", cfn)]
      ∧ cfn_workerType cfn = Some G_2X
      ∧ cfn_workerType cfn ≠ None.
Proof.
  split; [reflexivity|]. split; [reflexivity|].
  eexists _, _, _.
  split; [vm_compute; reflexivity|].
  split; [vm_compute; reflexivity|].
  split; [reflexivity | discriminate].
Qed.

(** C7 at the failing input: a Ray job with only a script and a role. *)
Lemma RayJob_emits_nothing_witness :
  ∃ job w',
    RayJob_constructor (JB:=sample_base) "Stack" "Ray" minimal_props
      empty_world = (Returned job, w')
    ∧ (∃ tree,
         Job_super (JobBase:=sample_base) "Stack" "Ray" None [] = Some tree
         ∧ w' = with_constructs tree empty_world)
    ∧ emitted w' = []
    ∧ this_jobName job = None
    ∧ this_jobArn job = None.
Proof.
  assert (∃ job w',
            RayJob_constructor (JB:=sample_base) "Stack" "Ray" minimal_props
              empty_world = (Returned job, w'))
    as (job & w' & Hrun) by returns.
  exists job, w'. split; [exact Hrun|].
  exact (RayJob_emits_nothing (JB:=sample_base) "Stack" "Ray"
           minimal_props empty_world job w' Hrun).
Defined.

(** C8 on both variants. *)
Lemma role_assignment_literal_inert_witness :
  (∃ job w',
     construct (JB:=sample_base) PySparkStreamingVariant "Stack" "Job"
       props_full empty_world = (Returned job, w')
     ∧ this_role job = glue_role
     ∧ this_grantPrincipal job = this_role job
     ∧ attachedManagedPolicies w' = [])
  ∧ (∃ job w',
       construct (JB:=sample_base) RayVariant "Stack" "Ray"
         props_full empty_world = (Returned job, w')
       ∧ this_role job = glue_role
       ∧ this_grantPrincipal job = this_role job
       ∧ attachedManagedPolicies w' = []).
Proof.
  split.
  - assert (∃ job w',
              construct (JB:=sample_base) PySparkStreamingVariant
                "Stack" "Job" props_full empty_world = (Returned job, w'))
      as (job & w' & Hrun) by returns.
    exists job, w'. split; [exact Hrun|].
    exact (proj2 (role_assignment_literal_inert (JB:=sample_base)
                    PySparkStreamingVariant "Stack" "Job" props_full
                    empty_world job w' Hrun)).
  - assert (∃ job w',
              construct (JB:=sample_base) RayVariant
                "Stack" "Ray" props_full empty_world = (Returned job, w'))
      as (job & w' & Hrun) by returns.
    exists job, w'. split; [exact Hrun|].
    exact (proj2 (role_assignment_literal_inert (JB:=sample_base)
                    RayVariant "Stack" "Ray" props_full
                    empty_world job w' Hrun)).
Defined.

(** ** Further properties of the constructs *)

Section Coverage.
Context {JB : JobBase}.

Ltac run_setup :=
  unfold setupSparkUI, validateSparkUiPrefix, new_Bucket, grantReadWrite,
    bind, ret, throw; simpl.

(** *** [setupSparkUI] on its own *)

(** X1.  [setupSparkUI] throws exactly when the prefix is of the wrong
    format; the error names the prefix, and nothing has been created or
    granted by then, with or without a bucket. *)
Theorem setupSparkUI_throws_iff this role ui w :
  ((∃ e, fst (setupSparkUI this role ui w) = Thrown e)
   ↔ validSparkUiPrefix (prefix ui) = false)
  ∧ (∀ e, fst (setupSparkUI this role ui w) = Thrown e →
       e = ValidationError (prefix ui)
       ∧ snd (setupSparkUI this role ui w) = w).
Proof.
  run_setup.
  destruct (validSparkUiPrefix (prefix ui)); simpl.
  - destruct (bucket ui); simpl; split;
      try (split; [intros [e He]; discriminate | discriminate]);
      intros e He; discriminate.
  - split; [split; [done | by eexists]|].
    by intros e [= <-].
Qed.

(** X2.  Called without a bucket, on a prefix of the right format,
    [setupSparkUI] creates one bucket, owned by the job under the id
    ["SparkUIBucket"]; it is this new bucket, the one [new Bucket] has
    returned, on whose cleaned prefix the role is granted read/write, and
    which is reported as the logging location and in the event-log
    path. *)
Theorem setupSparkUI_creates_missing_bucket this role ui w :
  validSparkUiPrefix (prefix ui) = true →
  bucket ui = None →
  ∃ b w1 r w',
    new_Bucket this "SparkUIBucket" w = (Returned b, w1)
    ∧ setupSparkUI this role ui w = (Returned r, w')
    ∧ createdBuckets w' = (createdBuckets w ++ [(this, "SparkUIBucket")])%list
    ∧ grants w'
      = (grants w ++ [(b, role, cleanSparkUiPrefixForGrant (prefix ui))])%list
    ∧ location r = {| location_prefix := prefix ui; location_bucket := b |}
    ∧ args r !! "--spark-event-logs-path"
      = Some (s3UrlForObject b (prefix ui))
    ∧ emitted w' = emitted w.
Proof.
  intros Hvalid Hbucket. run_setup. rewrite Hvalid, Hbucket. simpl.
  eexists _, _, _, _. split; [reflexivity|]. split; [reflexivity|]. simpl.
  repeat split.
Qed.

(** X3.  Called with a bucket, on a prefix of the right format,
    [setupSparkUI] creates no bucket: it grants the role read/write on the
    cleaned prefix of the caller's bucket and reports that bucket. *)
Theorem setupSparkUI_uses_supplied_bucket this role ui b w :
  validSparkUiPrefix (prefix ui) = true →
  bucket ui = Some b →
  ∃ r w',
    setupSparkUI this role ui w = (Returned r, w')
    ∧ createdBuckets w' = createdBuckets w
    ∧ grants w'
      = (grants w ++ [(b, role, cleanSparkUiPrefixForGrant (prefix ui))])%list
    ∧ location r = {| location_prefix := prefix ui; location_bucket := b |}
    ∧ emitted w' = emitted w.
Proof.
  intros Hvalid Hbucket. run_setup. rewrite Hvalid, Hbucket. simpl.
  eexists _, _. split; [reflexivity|]. simpl. done.
Qed.

(** X4.  Whenever [setupSparkUI] returns, its arguments are exactly the
    two Spark UI keys, the event-log path is the URL of the reported
    location, and the last grant made is for the reported bucket and the
    cleaned reported prefix. *)
Theorem setupSparkUI_result_consistent this role ui w r w' :
  setupSparkUI this role ui w = (Returned r, w') →
  dom (args r) = {[ "--enable-spark-ui"; "--spark-event-logs-path" ]}
  ∧ args r !! "--enable-spark-ui" = Some "true"
  ∧ args r !! "--spark-event-logs-path"
    = Some (s3UrlForObject (location_bucket (location r))
              (location_prefix (location r)))
  ∧ last (grants w')
    = Some (location_bucket (location r), role,
            cleanSparkUiPrefixForGrant (location_prefix (location r))).
Proof.
  run_setup.
  destruct (validSparkUiPrefix (prefix ui)); simpl; [|done].
  destruct (bucket ui) as [b|]; simpl; intros [= <- <-]; simpl;
    (split; [rewrite !dom_insert_L, dom_empty_L; set_solver|]);
    (split; [by rewrite lookup_insert_ne, lookup_insert_eq|]);
    (split; [by rewrite lookup_insert_eq|]);
    by rewrite last_snoc.
Qed.

(** *** The [pySparkStreamingJob] constructor *)

Ltac run_pyspark :=
  unfold pySparkStreamingJob_constructor, super_call, setupSparkUI,
    validateSparkUiPrefix, superAccepts, timeoutConverts,
    sparkUIRejects, sparkUIGrants, bind;
  simpl;
  rewrite ?checkNoReservedArgs_run.

Ltac run_pyspark_cases props :=
  let ui := fresh "ui" in
  let b := fresh "b" in
  let d := fresh "d" in
  destruct (sparkUI props) as [ui|]; simpl in *;
  [destruct (bucket ui) as [b|]; simpl in *;
   [destruct (validSparkUiPrefix (prefix ui)); simpl in *|]|];
  rewrite ?checkNoReservedArgs_run;
  try (destruct (callerCollisions props); simpl in *;
       [destruct (workerPairingBroken props); simpl in *;
        [|destruct (timeout props) as [d|]; simpl in *;
          [destruct (toMinutes d); simpl in *|]]|]).

(** The emitted properties and the instance fields of a run that passes
    the five checks. *)
Lemma pySparkStreamingJob_fields scope id
    (props : PySparkStreamingJobProperties) w :
  superAccepts scope id props w = true →
  sparkUIRejects props = false →
  callerCollisions props = [] →
  workerPairingBroken props = false →
  timeoutConverts props = true →
  ∃ job cfn w',
    pySparkStreamingJob_constructor scope id props w = (Returned job, w')
    ∧ emitted w' = (emitted w ++ [(scope +:+ "/" +:+ id, cfn)])%list
    ∧ cfn_name cfn = jobName props
    ∧ cfn_description cfn = description props
    ∧ cfn_role cfn = roleArn (role props)
    ∧ cfn_command cfn
      = {| command_name := STREAMING;
           scriptLocation := codeS3ObjectUrl (script props);
           pythonVersion := THREE_NINE |}
    ∧ cfn_glueVersion cfn = Some (default V4_0 (glueVersion props))
    ∧ cfn_maxRetries cfn = maxRetries props
    ∧ cfn_executionProperty cfn
      = (if truthy_number (maxConcurrentRuns props)
         then maxConcurrentRuns props else None)
    ∧ cfn_timeout cfn = timeout (base props) ≫= toMinutes
    ∧ cfn_connections cfn
      = option_map (map connectionName) (connections props)
    ∧ cfn_securityConfiguration cfn
      = option_map securityConfigurationName (securityConfiguration props)
    ∧ cfn_tags cfn = tags props
    ∧ this_jobName job
      = Some (getResourceNameAttribute
                (resourceRef (scope +:+ "/" +:+ id) "Resource"))
    ∧ this_jobArn job
      = Some (buildJobArn (scope +:+ "/" +:+ id)
                (getResourceNameAttribute
                   (resourceRef (scope +:+ "/" +:+ id) "Resource"))).
Proof.
  run_pyspark.
  destruct (Job_super scope id (jobName props) (constructs w)); [|done].
  intros _ Hrej Hcol Hbroken Hconv. simpl.
  run_pyspark_cases props; try done;
    do 3 eexists; (split; [reflexivity|]); simpl;
    repeat split; try reflexivity; by match goal with H : _ = _ |- _ => rewrite H end.
Qed.

(** What a run leaves behind, whatever its outcome: the grants of the
    Spark UI set-up if it ran and did not reject the prefix, and no
    emitted resource unless the run returned. *)
Lemma pySparkStreamingJob_effects scope id
    (props : PySparkStreamingJobProperties) w :
  grants (snd (pySparkStreamingJob_constructor scope id props w))
  = (grants w
     ++ if superAccepts scope id props w && negb (sparkUIRejects props)
        then sparkUIGrants props else [])%list
  ∧ (∀ e, fst (pySparkStreamingJob_constructor scope id props w) = Thrown e →
       emitted (snd (pySparkStreamingJob_constructor scope id props w))
       = emitted w).
Proof.
  run_pyspark.
  destruct (Job_super scope id (jobName props) (constructs w)); simpl;
    [|by rewrite app_nil_r].
  run_pyspark_cases props; rewrite ?app_nil_r; done.
Qed.

(** X5.  The construction returns exactly when five checks pass: the
    inherited constructor accepts the job in the scope, the Spark UI
    prefix is not rejected, no key of the caller's is reserved, worker
    type and worker count are paired, and the timeout, if there is one, is
    a whole number of minutes. *)
Theorem pySparkStreamingJob_succeeds_iff scope id
    (props : PySparkStreamingJobProperties) w :
  (∃ job w',
     pySparkStreamingJob_constructor scope id props w = (Returned job, w'))
  ↔ superAccepts scope id props w = true
    ∧ sparkUIRejects props = false
    ∧ callerCollisions props = []
    ∧ workerPairingBroken props = false
    ∧ timeoutConverts props = true.
Proof.
  split.
  - intros (job & w' & Hrun).
    by apply (pySparkStreamingJob_returned scope id props w job w').
  - intros (Hacc & Hrej & Hcol & Hbroken & Hconv).
    destruct (pySparkStreamingJob_resolved scope id props w Hacc Hrej Hcol
                Hbroken Hconv) as (job & cfn & w' & Hrun & _).
    by exists job, w'.
Qed.

(** X6.  The errors come in a fixed order: the inherited constructor's
    refusal of the job first, then a rejected Spark UI prefix, then the
    caller's reserved keys, then the unpaired worker settings, and last a
    timeout that is not a whole number of minutes; the constructor throws
    nothing else. *)
Theorem pySparkStreamingJob_error_priority scope id
    (props : PySparkStreamingJobProperties) w e :
  fst (pySparkStreamingJob_constructor scope id props w) = Thrown e →
  (superAccepts scope id props w = false ∧ e = ConstructError scope id)
  ∨ (superAccepts scope id props w = true
     ∧ ((sparkUIRejects props = true ∧ ∃ p, e = ValidationError p)
        ∨ (sparkUIRejects props = false
           ∧ ((callerCollisions props ≠ []
               ∧ e = ReservedArgumentError (callerCollisions props))
              ∨ (callerCollisions props = []
                 ∧ ((workerPairingBroken props = true
                     ∧ e = ConfigurationError workerPairingMessage)
                    ∨ (workerPairingBroken props = false
                       ∧ ∃ d, timeout props = Some d
                              ∧ toMinutes d = None
                              ∧ e = DurationError d))))))).
Proof.
  intros Hthrown.
  destruct (superAccepts scope id props w) eqn:Hacc.
  2: { left. split; [done|].
       rewrite (pySparkStreamingJob_refused scope id props w Hacc)
         in Hthrown.
       by injection Hthrown as <-. }
  right. split; [done|].
  destruct (sparkUIRejects props) eqn:Hrej.
  { left. split; [done|].
    destruct (pySparkStreamingJob_rejected scope id props w Hacc Hrej)
      as (ui & _ & Hrun).
    rewrite Hrun in Hthrown. injection Hthrown as <-. by eexists. }
  right. split; [done|].
  destruct (callerCollisions props) as [|k ks] eqn:Hcol.
  2: { left. assert (callerCollisions props ≠ []) as Hne
         by (by rewrite Hcol).
       rewrite (pySparkStreamingJob_collision scope id props w Hacc Hrej
                  Hne) in Hthrown.
       rewrite Hcol in Hthrown. injection Hthrown as <-. done. }
  right. split; [done|].
  destruct (workerPairingBroken props) eqn:Hbroken.
  { left. split; [done|].
    rewrite (pySparkStreamingJob_unpaired scope id props w Hacc Hrej Hcol
               Hbroken) in Hthrown.
    by injection Hthrown as <-. }
  right. split; [done|].
  destruct (timeoutConverts props) eqn:Hconv.
  { destruct (pySparkStreamingJob_resolved scope id props w Hacc Hrej Hcol
                Hbroken Hconv) as (job & cfn & w' & Hrun & _).
    rewrite Hrun in Hthrown. done. }
  unfold timeoutConverts in Hconv.
  destruct (timeout props) as [d|] eqn:Hd; [|done].
  destruct (toMinutes d) eqn:Hmin; [done|].
  exists d.
  rewrite (pySparkStreamingJob_unconverted scope id props w d Hacc Hrej
             Hcol Hbroken Hd Hmin) in Hthrown.
  by injection Hthrown as <-.
Qed.

(** X7.  A construction that throws has emitted no resource, created no
    bucket and attached no managed policy. *)
Theorem pySparkStreamingJob_failure_emits_nothing scope id props w e :
  fst (pySparkStreamingJob_constructor scope id props w) = Thrown e →
  emitted (snd (pySparkStreamingJob_constructor scope id props w))
  = emitted w
  ∧ createdBuckets (snd (pySparkStreamingJob_constructor scope id props w))
    = createdBuckets w
  ∧ attachedManagedPolicies
      (snd (pySparkStreamingJob_constructor scope id props w))
    = attachedManagedPolicies w.
Proof.
  intros Hthrown. split.
  - destruct (pySparkStreamingJob_effects scope id props w) as (_ & Hemit).
    by apply (Hemit e).
  - pose proof (pySparkStreamingJob_world scope id props w) as Hw.
    simpl in Hw. by destruct Hw as (? & ? & _).
Qed.

(** X8.  The grant of the Spark UI set-up is made before the
    reserved-argument check, the worker pairing check and the conversion
    of the timeout, and it stays: once the inherited constructor has
    accepted the job and the prefix is accepted, the world holds the grant
    for the caller's bucket whether the construction then returns or
    throws. *)
Theorem pySparkStreamingJob_grant_survives_failure
    scope id (props : PySparkStreamingJobProperties) w ui b :
  superAccepts scope id props w = true →
  sparkUI props = Some ui →
  bucket ui = Some b →
  validSparkUiPrefix (prefix ui) = true →
  grants (snd (pySparkStreamingJob_constructor scope id props w))
  = (grants w
     ++ [(b, role props, cleanSparkUiPrefixForGrant (prefix ui))])%list.
Proof.
  intros Hacc Hui Hb Hvalid.
  destruct (pySparkStreamingJob_effects scope id props w) as (-> & _).
  unfold sparkUIRejects, sparkUIGrants.
  rewrite Hacc, Hui, Hb, Hvalid. done.
Qed.

(** X9.  The constructor never creates a bucket, whatever the properties
    and whatever the outcome: it calls [setupSparkUI] only with a bucket
    in hand. *)
Theorem pySparkStreamingJob_never_creates_bucket scope id props w :
  createdBuckets (snd (pySparkStreamingJob_constructor scope id props w))
  = createdBuckets w.
Proof.
  pose proof (pySparkStreamingJob_world scope id props w) as Hw.
  simpl in Hw. by destruct Hw as (? & _).
Qed.

Lemma pySparkStreamingJob_fields_inv scope id props w job w' :
  pySparkStreamingJob_constructor scope id props w = (Returned job, w') →
  ∃ cfn,
    emitted w' = (emitted w ++ [(scope +:+ "/" +:+ id, cfn)])%list
    ∧ cfn_name cfn = jobName props
    ∧ cfn_description cfn = description props
    ∧ cfn_role cfn = roleArn (role props)
    ∧ cfn_command cfn
      = {| command_name := STREAMING;
           scriptLocation := codeS3ObjectUrl (script props);
           pythonVersion := THREE_NINE |}
    ∧ cfn_glueVersion cfn = Some (default V4_0 (glueVersion props))
    ∧ cfn_maxRetries cfn = maxRetries props
    ∧ cfn_executionProperty cfn
      = (if truthy_number (maxConcurrentRuns props)
         then maxConcurrentRuns props else None)
    ∧ cfn_timeout cfn = timeout (base props) ≫= toMinutes
    ∧ cfn_connections cfn
      = option_map (map connectionName) (connections props)
    ∧ cfn_securityConfiguration cfn
      = option_map securityConfigurationName (securityConfiguration props)
    ∧ cfn_tags cfn = tags props
    ∧ this_jobName job
      = Some (getResourceNameAttribute
                (resourceRef (scope +:+ "/" +:+ id) "Resource"))
    ∧ this_jobArn job
      = Some (buildJobArn (scope +:+ "/" +:+ id)
                (getResourceNameAttribute
                   (resourceRef (scope +:+ "/" +:+ id) "Resource"))).
Proof.
  intros Hrun.
  destruct (pySparkStreamingJob_returned _ _ _ _ _ _ Hrun)
    as (Hacc & Hrej & Hcol & Hbroken & Hconv).
  destruct (pySparkStreamingJob_fields scope id props w Hacc Hrej Hcol
              Hbroken Hconv)
    as (job0 & cfn & w0 & Hrun0 & Hfields).
  rewrite Hrun in Hrun0. injection Hrun0 as <- <-.
  by exists cfn.
Qed.

(** X10.  Every emitted job is a streaming command on Python 3.9 whose
    script location is the URL of the caller's script, run under the ARN
    of the caller's role; the Glue version is the caller's, and 4.0 when
    the caller gives none. *)
Theorem pySparkStreamingJob_command scope id props w job w' :
  pySparkStreamingJob_constructor scope id props w = (Returned job, w') →
  ∃ cfn,
    emitted w' = (emitted w ++ [(scope +:+ "/" +:+ id, cfn)])%list
    ∧ command_name (cfn_command cfn) = STREAMING
    ∧ pythonVersion (cfn_command cfn) = THREE_NINE
    ∧ scriptLocation (cfn_command cfn) = codeS3ObjectUrl (script props)
    ∧ cfn_role cfn = roleArn (role props)
    ∧ cfn_glueVersion cfn = Some (default V4_0 (glueVersion props)).
Proof.
  intros Hrun.
  destruct (pySparkStreamingJob_fields_inv _ _ _ _ _ _ Hrun)
    as (cfn & Hemit & _ & _ & Hrole & Hcmd & Hver & _).
  exists cfn. rewrite Hcmd. done.
Qed.

(** X11.  The execution property is emitted only for a concurrency limit
    other than zero: with [maxConcurrentRuns] unset or [0] the emitted job
    has none, otherwise it carries the limit. *)
Theorem pySparkStreamingJob_executionProperty scope id props w job w' :
  pySparkStreamingJob_constructor scope id props w = (Returned job, w') →
  ∃ cfn,
    emitted w' = (emitted w ++ [(scope +:+ "/" +:+ id, cfn)])%list
    ∧ (maxConcurrentRuns props = None ∨ maxConcurrentRuns props = Some 0%Z →
       cfn_executionProperty cfn = None)
    ∧ (∀ n, maxConcurrentRuns props = Some n → n ≠ 0%Z →
         cfn_executionProperty cfn = Some n).
Proof.
  intros Hrun.
  destruct (pySparkStreamingJob_fields_inv _ _ _ _ _ _ Hrun)
    as (cfn & Hemit & _ & _ & _ & _ & _ & _ & Hexec & _).
  exists cfn. split; [done|]. rewrite Hexec. split.
  - by intros [-> | ->].
  - intros n -> Hn. simpl. by destruct (Z.eqb_spec n 0).
Qed.

(** X12.  Paired worker settings pass through unchanged, a worker count
    of zero included. *)
Theorem pySparkStreamingJob_paired_workers scope id props w job w' t n :
  pySparkStreamingJob_constructor scope id props w = (Returned job, w') →
  workerType props = Some t →
  numberOrWorkers props = Some n →
  ∃ cfn,
    emitted w' = (emitted w ++ [(scope +:+ "/" +:+ id, cfn)])%list
    ∧ cfn_workerType cfn = Some t
    ∧ cfn_numberOfWorkers cfn = Some n.
Proof.
  intros Hrun Ht Hn.
  destruct (pySparkStreamingJob_merged _ _ _ _ _ _ Hrun)
    as (cfn & Hemit & _ & Hwt & Hnw).
  exists cfn. by rewrite Hwt, Hnw, Ht, Hn.
Qed.

(** X13.  The optional settings reach the emitted job as given: name,
    description, retries and tags unchanged, the timeout converted to
    minutes (it is a whole number of minutes, or the construction would
    not have returned), the security configuration by name, and the
    connections by name, in order; an empty list of connections is still
    emitted, as an empty list. *)
Theorem pySparkStreamingJob_settings_pass_through scope id props w job w' :
  pySparkStreamingJob_constructor scope id props w = (Returned job, w') →
  ∃ cfn,
    emitted w' = (emitted w ++ [(scope +:+ "/" +:+ id, cfn)])%list
    ∧ cfn_name cfn = jobName props
    ∧ cfn_description cfn = description props
    ∧ cfn_maxRetries cfn = maxRetries props
    ∧ cfn_tags cfn = tags props
    ∧ cfn_timeout cfn = timeout (base props) ≫= toMinutes
    ∧ (∀ d, timeout props = Some d →
         ∃ minutes, toMinutes d = Some minutes
                    ∧ cfn_timeout cfn = Some minutes)
    ∧ (timeout props = None → cfn_timeout cfn = None)
    ∧ cfn_securityConfiguration cfn
      = securityConfigurationName <$> securityConfiguration (base props)
    ∧ (∀ cs, connections props = Some cs →
         ∃ names, cfn_connections cfn = Some names
                  ∧ length names = length cs
                  ∧ ∀ i, names !! i = connectionName <$> cs !! i)
    ∧ (connections props = None → cfn_connections cfn = None).
Proof.
  intros Hrun.
  destruct (pySparkStreamingJob_returned _ _ _ _ _ _ Hrun)
    as (_ & _ & _ & _ & Hconv).
  destruct (pySparkStreamingJob_fields_inv _ _ _ _ _ _ Hrun)
    as (cfn & Hemit & Hname & Hdesc & _ & _ & _ & Hretries & _ & Htimeout
        & Hconn & Hsec & Htags & _).
  exists cfn. do 5 (split; [done|]).
  split; [done|].
  split.
  { intros d Hd. rewrite Htimeout, Hd. simpl.
    unfold timeoutConverts in Hconv. rewrite Hd in Hconv.
    destruct (toMinutes d) as [minutes|]; [by exists minutes | done]. }
  split; [by intros Hd; rewrite Htimeout, Hd|].
  split; [by rewrite Hsec|].
  rewrite Hconn. split.
  - intros cs ->. simpl. eexists. split; [done|]. split.
    + by rewrite length_map.
    + intros i. apply list_lookup_fmap.
  - by intros ->.
Qed.

(** X14.  The job name is the name attribute of the emitted resource's
    reference, and the ARN is built from that same name. *)
Theorem pySparkStreamingJob_name_and_arn scope id props w job w' :
  pySparkStreamingJob_constructor scope id props w = (Returned job, w') →
  ∃ name,
    name = getResourceNameAttribute
             (resourceRef (scope +:+ "/" +:+ id) "Resource")
    ∧ this_jobName job = Some name
    ∧ this_jobArn job = Some (buildJobArn (scope +:+ "/" +:+ id) name).
Proof.
  intros Hrun.
  destruct (pySparkStreamingJob_fields_inv _ _ _ _ _ _ Hrun)
    as (cfn & _ & _ & _ & _ & _ & _ & _ & _ & _ & _ & _ & _ & Hname & Harn).
  eexists. split; [reflexivity|]. done.
Qed.

(** X15.  With a bucket supplied, a job that is constructed holds the
    caller's prefix and bucket as its Spark UI logging location, the
    prefix has passed validation, and the role has been granted read/write
    on the cleaned prefix of that bucket. *)
Theorem pySparkStreamingJob_logging_location scope id props w job w' ui b :
  pySparkStreamingJob_constructor scope id props w = (Returned job, w') →
  sparkUI props = Some ui →
  bucket ui = Some b →
  this_sparkUILoggingLocation job
  = Some {| location_prefix := prefix ui; location_bucket := b |}
  ∧ validSparkUiPrefix (prefix ui) = true
  ∧ grants w'
    = (grants w
       ++ [(b, role props, cleanSparkUiPrefixForGrant (prefix ui))])%list.
Proof.
  intros Hrun Hui Hb.
  destruct (pySparkStreamingJob_returned _ _ _ _ _ _ Hrun)
    as (Hacc & Hrej & Hcol & Hbroken & Hconv).
  destruct (pySparkStreamingJob_resolved scope id props w Hacc Hrej Hcol
              Hbroken Hconv)
    as (job0 & cfn & w0 & Hrun0 & _ & Hgrants & _ & _ & _ & _ & _ & Hloc & _).
  rewrite Hrun in Hrun0. injection Hrun0 as <- <-.
  rewrite Hloc, Hgrants.
  unfold sparkUILocation, sparkUIGrants, sparkUIRejects in *.
  rewrite Hui, Hb in *. simpl in Hrej.
  split; [done|]. split; [|done].
  by destruct (validSparkUiPrefix (prefix ui)).
Qed.

(** X16.  Every argument of the caller's reaches the emitted job with the
    caller's value, whatever the framework's fragments hold under the same
    key. *)
Theorem pySparkStreamingJob_caller_arguments_kept
    scope id props w job w' m :
  pySparkStreamingJob_constructor scope id props w = (Returned job, w') →
  defaultArguments props = Some m →
  ∃ cfn,
    emitted w' = (emitted w ++ [(scope +:+ "/" +:+ id, cfn)])%list
    ∧ m ⊆ cfn_defaultArguments cfn.
Proof.
  intros Hrun Hm.
  destruct (pySparkStreamingJob_merged _ _ _ _ _ _ Hrun)
    as (cfn & Hemit & Hargs & _).
  exists cfn. split; [done|].
  apply map_subseteq_spec. intros k v Hk.
  rewrite Hargs, ordered_merge_five.
  unfold callerFragment. rewrite Hm. simpl. by rewrite Hk.
Qed.

(** X17.  The keys of the emitted arguments are the keys of the five
    fragments and no others: nothing is dropped and nothing is added. *)
Theorem pySparkStreamingJob_argument_keys scope id props w job w' :
  pySparkStreamingJob_constructor scope id props w = (Returned job, w') →
  ∃ cfn,
    emitted w' = (emitted w ++ [(scope +:+ "/" +:+ id, cfn)])%list
    ∧ dom (cfn_defaultArguments cfn)
      = {[ "--job-language"; "--enable-metrics" ]}
        ∪ dom (continuousLoggingFragment props)
        ∪ dom (sparkUIFragment props)
        ∪ dom (callerFragment props).
Proof.
  intros Hrun.
  destruct (pySparkStreamingJob_merged _ _ _ _ _ _ Hrun)
    as (cfn & Hemit & Hargs & _).
  exists cfn. split; [done|].
  rewrite Hargs. simpl. rewrite !dom_union_L, dom_empty_L.
  unfold variantRequiredArgs, metricsFragment.
  rewrite !dom_singleton_L.
  apply set_eq. intros k.
  rewrite !elem_of_union, !elem_of_singleton, elem_of_empty. tauto.
Qed.

(** X18.  A job without continuous logging, without a Spark UI bucket and
    without arguments of the caller's gets exactly two arguments: the job
    language and the metrics switch. *)
Theorem pySparkStreamingJob_bare_arguments scope id props w job w' :
  pySparkStreamingJob_constructor scope id props w = (Returned job, w') →
  (∀ cl, continuousLogging props = Some cl → enabled cl = false) →
  sparkUI props ≫= bucket = None →
  defaultArguments props = None →
  ∃ cfn,
    emitted w' = (emitted w ++ [(scope +:+ "/" +:+ id, cfn)])%list
    ∧ cfn_defaultArguments cfn
      = {[ "--job-language" := "python"; "--enable-metrics" := "" ]}.
Proof.
  intros Hrun Hcl Hui Hargs.
  destruct (pySparkStreamingJob_merged _ _ _ _ _ _ Hrun)
    as (cfn & Hemit & Hmerged & _).
  exists cfn. split; [done|]. rewrite Hmerged. simpl.
  assert (continuousLoggingFragment props = ∅) as ->.
  { unfold continuousLoggingFragment.
    destruct (continuousLogging props) as [cl|]; [|done].
    by rewrite (Hcl cl eq_refl). }
  assert (sparkUIFragment props = ∅) as ->.
  { unfold sparkUIFragment.
    destruct (sparkUI props) as [ui|]; [|done].
    simpl in Hui. by rewrite Hui. }
  unfold callerFragment. rewrite Hargs.
  vm_compute. reflexivity.
Qed.

(** *** The [RayJob] constructor *)

(** X19.  A [RayJob] construction returns exactly when the inherited
    constructor accepts the job in the scope and no key of the caller's is
    reserved; otherwise it throws the inherited constructor's error, or,
    after it, the reserved-argument error, and no other.  Whatever the
    outcome it creates no bucket, makes no grant, attaches no policy and
    emits no resource. *)
Theorem RayJob_outcome scope id (props : RayJobProperties) w :
  ((∃ job w', RayJob_constructor scope id props w = (Returned job, w'))
   ↔ superAccepts scope id props w = true ∧ callerCollisions props = [])
  ∧ (∀ e, fst (RayJob_constructor scope id props w) = Thrown e →
       (superAccepts scope id props w = false
        ∧ e = ConstructError scope id
        ∧ snd (RayJob_constructor scope id props w) = w)
       ∨ (superAccepts scope id props w = true
          ∧ e = ReservedArgumentError (callerCollisions props)))
  ∧ createdBuckets (snd (RayJob_constructor scope id props w))
    = createdBuckets w
  ∧ grants (snd (RayJob_constructor scope id props w)) = grants w
  ∧ attachedManagedPolicies (snd (RayJob_constructor scope id props w))
    = attachedManagedPolicies w
  ∧ emitted (snd (RayJob_constructor scope id props w)) = emitted w.
Proof.
  rewrite RayJob_run. unfold superAccepts.
  destruct (Job_super scope id (jobName props) (constructs w)) as [tree|];
    [destruct (callerCollisions props) as [|k ks]|]; simpl.
  - split; [split; [done | by eexists _, _]|].
    split; [done|]. done.
  - split; [split; [by intros (job & w' & ?) | by intros [_ ?]]|].
    split; [|done]. intros e [= <-]. by right.
  - split; [split; [by intros (job & w' & ?) | by intros [? _]]|].
    split; [|done]. intros e [= <-]. by left.
Qed.

(** X20.  Of its properties a [RayJob] reads the job name (handed to the
    inherited constructor), the role and the caller's arguments, and
    nothing else: script, worker settings, versions and logging settings
    do not change what the constructor returns or throws. *)
Theorem RayJob_reads_name_role_and_arguments_only
    scope id (props1 props2 : RayJobProperties) w :
  jobName props1 = jobName props2 →
  role props1 = role props2 →
  defaultArguments props1 = defaultArguments props2 →
  RayJob_constructor scope id props1 w
  = RayJob_constructor scope id props2 w.
Proof.
  intros Hname Hrole Hargs. rewrite !RayJob_run.
  unfold callerCollisions. by rewrite Hname, Hrole, Hargs.
Qed.

End Coverage.

(** ** The further properties on concrete jobs *)

(** X2 for the job ["Stack/Job"] and the prefix ["logs/"]. *)
Lemma setupSparkUI_creates_missing_bucket_witness :
  ∃ r w',
    setupSparkUI (JB:=sample_base) "Stack/Job" glue_role sparkUI_no_bucket
      empty_world = (Returned r, w')
    ∧ createdBuckets w' = [("Stack/Job", "SparkUIBucket")]
    ∧ grants w'
      = [({| bucketName := "Stack/Job/SparkUIBucket" |}, glue_role,
          Some "logs/*")]
    ∧ location r
      = {| location_prefix := Some "logs/";
           location_bucket := {| bucketName := "Stack/Job/SparkUIBucket" |} |}
    ∧ args r !! "--spark-event-logs-path"
      = Some "s3://Stack/Job/SparkUIBucket/logs/"
    ∧ emitted w' = [].
Proof.
  destruct (setupSparkUI_creates_missing_bucket (JB:=sample_base)
              "Stack/Job" glue_role sparkUI_no_bucket empty_world
              eq_refl eq_refl)
    as (b & w1 & r & w' & Hnew & Hrun & Hbuckets & Hgrants & Hloc & Hpath
        & Hemit).
  assert (b = {| bucketName := "Stack/Job/SparkUIBucket" |}) as Hb.
  { vm_compute in Hnew. injection Hnew as <- _. reflexivity. }
  rewrite Hb in Hgrants, Hloc, Hpath.
  exists r, w'. split; [exact Hrun|]. split; [exact Hbuckets|].
  split; [exact Hgrants|]. split; [exact Hloc|].
  split; [exact Hpath | exact Hemit].
Defined.

(** X3 with the caller's bucket. *)
Lemma setupSparkUI_uses_supplied_bucket_witness :
  ∃ r w',
    setupSparkUI (JB:=sample_base) "Stack/Job" glue_role sparkUI_logs
      empty_world = (Returned r, w')
    ∧ createdBuckets w' = []
    ∧ grants w' = [(logs_bucket, glue_role, Some "logs/*")]
    ∧ location r
      = {| location_prefix := Some "logs/"; location_bucket := logs_bucket |}
    ∧ emitted w' = [].
Proof.
  exact (setupSparkUI_uses_supplied_bucket (JB:=sample_base) "Stack/Job"
           glue_role sparkUI_logs logs_bucket empty_world eq_refl eq_refl).
Defined.

(** X4 with the caller's bucket. *)
Lemma setupSparkUI_result_consistent_witness :
  ∃ r w',
    setupSparkUI (JB:=sample_base) "Stack/Job" glue_role sparkUI_logs
      empty_world = (Returned r, w')
    ∧ dom (args r) = {[ "--enable-spark-ui"; "--spark-event-logs-path" ]}
    ∧ args r !! "--enable-spark-ui" = Some "true"
    ∧ args r !! "--spark-event-logs-path" = Some "s3://logs-bucket/logs/"
    ∧ last (grants w') = Some (logs_bucket, glue_role, Some "logs/*").
Proof.
  assert (∃ r w',
            setupSparkUI (JB:=sample_base) "Stack/Job" glue_role sparkUI_logs
              empty_world = (Returned r, w'))
    as (r & w' & Hrun) by returns.
  exists r, w'. split; [exact Hrun|].
  pose proof (setupSparkUI_result_consistent (JB:=sample_base) "Stack/Job"
                glue_role sparkUI_logs empty_world r w' Hrun) as Hthm.
  assert (location r
          = {| location_prefix := Some "logs/";
               location_bucket := logs_bucket |}) as Hloc.
  { vm_compute in Hrun. by injection Hrun as <- _. }
  rewrite Hloc in Hthm. exact Hthm.
Defined.

(** X6 on an id that is taken, on a rejected prefix together with a
    reserved key, on a worker type without a worker count, and on a
    timeout of ninety seconds. *)
Lemma pySparkStreamingJob_error_priority_witness :
  (∃ e,
     fst (pySparkStreamingJob_constructor (JB:=sample_base) "Stack" "Job"
            props_reserved_bad_prefix world_with_job) = Thrown e
     ∧ e = ConstructError "Stack" "Job")
  ∧ (∃ e,
       fst (pySparkStreamingJob_constructor (JB:=sample_base) "Stack" "Job"
              props_reserved_bad_prefix empty_world) = Thrown e
       ∧ ∃ p, e = ValidationError p)
  ∧ (∃ e,
       fst (pySparkStreamingJob_constructor (JB:=sample_base) "Stack" "Job"
              props_workerType_only empty_world) = Thrown e
       ∧ e = ConfigurationError workerPairingMessage)
  ∧ (∃ e,
       fst (pySparkStreamingJob_constructor (JB:=sample_base) "Stack" "Job"
              props_timeout_seconds empty_world) = Thrown e
       ∧ ∃ d, e = DurationError d).
Proof.
  split; [|split; [|split]].
  - assert (∃ e,
              fst (pySparkStreamingJob_constructor (JB:=sample_base)
                     "Stack" "Job" props_reserved_bad_prefix world_with_job)
              = Thrown e) as (e & Hthrown)
      by (vm_compute; eexists; reflexivity).
    exists e. split; [exact Hthrown|].
    destruct (pySparkStreamingJob_error_priority (JB:=sample_base)
                "Stack" "Job" props_reserved_bad_prefix world_with_job e
                Hthrown)
      as [(_ & He) | (Hacc & _)];
      [exact He | vm_compute in Hacc; discriminate].
  - assert (∃ e,
              fst (pySparkStreamingJob_constructor (JB:=sample_base)
                     "Stack" "Job" props_reserved_bad_prefix empty_world)
              = Thrown e) as (e & Hthrown)
      by (vm_compute; eexists; reflexivity).
    exists e. split; [exact Hthrown|].
    destruct (pySparkStreamingJob_error_priority (JB:=sample_base)
                "Stack" "Job" props_reserved_bad_prefix empty_world e
                Hthrown)
      as [(Hacc & _) | (_ & [(_ & Hval) | (Hrej & _)])];
      [vm_compute in Hacc; discriminate | exact Hval
       | vm_compute in Hrej; discriminate].
  - assert (∃ e,
              fst (pySparkStreamingJob_constructor (JB:=sample_base)
                     "Stack" "Job" props_workerType_only empty_world)
              = Thrown e) as (e & Hthrown)
      by (vm_compute; eexists; reflexivity).
    exists e. split; [exact Hthrown|].
    destruct (pySparkStreamingJob_error_priority (JB:=sample_base)
                "Stack" "Job" props_workerType_only empty_world e
                Hthrown)
      as [(Hacc & _)
         | (_ & [(Hrej & _)
                | (_ & [(Hcol & _)
                       | (_ & [(_ & Hconf) | (Hbroken & _)])])])];
      [vm_compute in Hacc; discriminate
       | vm_compute in Hrej; discriminate
       | exfalso; apply Hcol; vm_compute; reflexivity
       | exact Hconf
       | vm_compute in Hbroken; discriminate].
  - assert (∃ e,
              fst (pySparkStreamingJob_constructor (JB:=sample_base)
                     "Stack" "Job" props_timeout_seconds empty_world)
              = Thrown e) as (e & Hthrown)
      by (vm_compute; eexists; reflexivity).
    exists e. split; [exact Hthrown|].
    destruct (pySparkStreamingJob_error_priority (JB:=sample_base)
                "Stack" "Job" props_timeout_seconds empty_world e
                Hthrown)
      as [(Hacc & _)
         | (_ & [(Hrej & _)
                | (_ & [(Hcol & _)
                       | (_ & [(Hbroken & _)
                              | (_ & d & _ & _ & Hdur)])])])];
      [vm_compute in Hacc; discriminate
       | vm_compute in Hrej; discriminate
       | exfalso; apply Hcol; vm_compute; reflexivity
       | vm_compute in Hbroken; discriminate
       | exists d; exact Hdur].
Defined.

(** X7 on a worker type without a worker count. *)
Lemma pySparkStreamingJob_failure_emits_nothing_witness :
  ∃ e,
    fst (pySparkStreamingJob_constructor (JB:=sample_base) "Stack" "Job"
           props_workerType_only empty_world) = Thrown e
    ∧ emitted (snd (pySparkStreamingJob_constructor (JB:=sample_base)
                      "Stack" "Job" props_workerType_only empty_world)) = []
    ∧ createdBuckets
        (snd (pySparkStreamingJob_constructor (JB:=sample_base)
                "Stack" "Job" props_workerType_only empty_world)) = []
    ∧ attachedManagedPolicies
        (snd (pySparkStreamingJob_constructor (JB:=sample_base)
                "Stack" "Job" props_workerType_only empty_world)) = [].
Proof.
  assert (∃ e,
            fst (pySparkStreamingJob_constructor (JB:=sample_base)
                   "Stack" "Job" props_workerType_only empty_world)
            = Thrown e) as (e & Hthrown)
    by (vm_compute; eexists; reflexivity).
  exists e. split; [exact Hthrown|].
  exact (pySparkStreamingJob_failure_emits_nothing (JB:=sample_base)
           "Stack" "Job" props_workerType_only empty_world e Hthrown).
Defined.

(** X8 on a job whose construction fails at the reserved-argument check,
    after the Spark UI set-up. *)
Lemma pySparkStreamingJob_grant_survives_failure_witness :
  fst (pySparkStreamingJob_constructor (JB:=sample_base) "Stack" "Job"
         props_reserved_with_sparkUI empty_world)
  = Thrown (ReservedArgumentError ["--JOB_NAME"])
  ∧ grants (snd (pySparkStreamingJob_constructor (JB:=sample_base)
                   "Stack" "Job" props_reserved_with_sparkUI empty_world))
    = [(logs_bucket, glue_role, Some "logs/*")].
Proof.
  split; [vm_compute; reflexivity|].
  exact (pySparkStreamingJob_grant_survives_failure (JB:=sample_base)
           "Stack" "Job" props_reserved_with_sparkUI empty_world
           sparkUI_logs logs_bucket eq_refl eq_refl eq_refl eq_refl).
Defined.

(** X10 on a job with a Glue version of its own, and on one without. *)
Lemma pySparkStreamingJob_command_witness :
  (∃ job w',
     pySparkStreamingJob_constructor (JB:=sample_base) "Stack" "Job"
       props_detailed empty_world = (Returned job, w')
     ∧ ∃ cfn,
         emitted w' = [("Stack/Job", cfn)]
         ∧ command_name (cfn_command cfn) = STREAMING
         ∧ pythonVersion (cfn_command cfn) = THREE_NINE
         ∧ scriptLocation (cfn_command cfn) = "s3://assets/stream.py"
         ∧ cfn_role cfn = "arn:aws:iam::account:role/glue"
         ∧ cfn_glueVersion cfn = Some V3_0)
  ∧ (∃ job w',
       pySparkStreamingJob_constructor (JB:=sample_base) "Stack" "Job"
         props_minimal empty_world = (Returned job, w')
       ∧ ∃ cfn,
           emitted w' = [("Stack/Job", cfn)]
           ∧ command_name (cfn_command cfn) = STREAMING
           ∧ pythonVersion (cfn_command cfn) = THREE_NINE
           ∧ scriptLocation (cfn_command cfn) = "s3://assets/hello_world.py"
           ∧ cfn_role cfn = "arn:aws:iam::account:role/glue"
           ∧ cfn_glueVersion cfn = Some V4_0).
Proof.
  split.
  - assert (∃ job w',
              pySparkStreamingJob_constructor (JB:=sample_base) "Stack" "Job"
                props_detailed empty_world = (Returned job, w'))
      as (job & w' & Hrun) by returns.
    exists job, w'. split; [exact Hrun|].
    exact (pySparkStreamingJob_command (JB:=sample_base) "Stack" "Job"
             props_detailed empty_world job w' Hrun).
  - assert (∃ job w',
              pySparkStreamingJob_constructor (JB:=sample_base) "Stack" "Job"
                props_minimal empty_world = (Returned job, w'))
      as (job & w' & Hrun) by returns.
    exists job, w'. split; [exact Hrun|].
    exact (pySparkStreamingJob_command (JB:=sample_base) "Stack" "Job"
             props_minimal empty_world job w' Hrun).
Defined.

(** X11 on a concurrency limit of zero, and of three. *)
Lemma pySparkStreamingJob_executionProperty_witness :
  (∃ job w',
     pySparkStreamingJob_constructor (JB:=sample_base) "Stack" "Job"
       props_detailed empty_world = (Returned job, w')
     ∧ ∃ cfn,
         emitted w' = [("Stack/Job", cfn)]
         ∧ cfn_executionProperty cfn = None)
  ∧ (∃ job w',
       pySparkStreamingJob_constructor (JB:=sample_base) "Stack" "Job"
         props_connected empty_world = (Returned job, w')
       ∧ ∃ cfn,
           emitted w' = [("Stack/Job", cfn)]
           ∧ cfn_executionProperty cfn = Some 3%Z).
Proof.
  split.
  - assert (∃ job w',
              pySparkStreamingJob_constructor (JB:=sample_base) "Stack" "Job"
                props_detailed empty_world = (Returned job, w'))
      as (job & w' & Hrun) by returns.
    exists job, w'. split; [exact Hrun|].
    destruct (pySparkStreamingJob_executionProperty (JB:=sample_base)
                "Stack" "Job" props_detailed empty_world job w' Hrun)
      as (cfn & Hemit & Hzero & _).
    exists cfn. split; [exact Hemit|].
    apply Hzero. right. reflexivity.
  - assert (∃ job w',
              pySparkStreamingJob_constructor (JB:=sample_base) "Stack" "Job"
                props_connected empty_world = (Returned job, w'))
      as (job & w' & Hrun) by returns.
    exists job, w'. split; [exact Hrun|].
    destruct (pySparkStreamingJob_executionProperty (JB:=sample_base)
                "Stack" "Job" props_connected empty_world job w' Hrun)
      as (cfn & Hemit & _ & Hlimit).
    exists cfn. split; [exact Hemit|].
    apply Hlimit; [reflexivity | discriminate].
Defined.

(** X12 on the worker type [G_1X] with a worker count of zero. *)
Lemma pySparkStreamingJob_paired_workers_witness :
  ∃ job w',
    pySparkStreamingJob_constructor (JB:=sample_base) "Stack" "Job"
      props_detailed empty_world = (Returned job, w')
    ∧ ∃ cfn,
        emitted w' = [("Stack/Job", cfn)]
        ∧ cfn_workerType cfn = Some G_1X
        ∧ cfn_numberOfWorkers cfn = Some 0%Z.
Proof.
  assert (∃ job w',
            pySparkStreamingJob_constructor (JB:=sample_base) "Stack" "Job"
              props_detailed empty_world = (Returned job, w'))
    as (job & w' & Hrun) by returns.
  exists job, w'. split; [exact Hrun|].
  exact (pySparkStreamingJob_paired_workers (JB:=sample_base) "Stack" "Job"
           props_detailed empty_world job w' G_1X 0%Z Hrun
           eq_refl eq_refl).
Defined.

(** X13 on two connections, and on an empty list of connections. *)
Lemma pySparkStreamingJob_settings_pass_through_witness :
  (∃ job w',
     pySparkStreamingJob_constructor (JB:=sample_base) "Stack" "Job"
       props_connected empty_world = (Returned job, w')
     ∧ ∃ cfn names,
         emitted w' = [("Stack/Job", cfn)]
         ∧ cfn_connections cfn = Some names
         ∧ length names = 2
         ∧ names !! 0 = Some "jdbc-a"
         ∧ names !! 1 = Some "kafka-b")
  ∧ (∃ job w',
       pySparkStreamingJob_constructor (JB:=sample_base) "Stack" "Job"
         props_detailed empty_world = (Returned job, w')
       ∧ ∃ cfn names,
           emitted w' = [("Stack/Job", cfn)]
           ∧ cfn_name cfn = Some "streamer"
           ∧ cfn_maxRetries cfn = Some 2%Z
           ∧ cfn_timeout cfn = Some 90%Z
           ∧ cfn_securityConfiguration cfn = Some "sec-config"
           ∧ cfn_connections cfn = Some names
           ∧ length names = 0).
Proof.
  split.
  - assert (∃ job w',
              pySparkStreamingJob_constructor (JB:=sample_base) "Stack" "Job"
                props_connected empty_world = (Returned job, w'))
      as (job & w' & Hrun) by returns.
    exists job, w'. split; [exact Hrun|].
    destruct (pySparkStreamingJob_settings_pass_through (JB:=sample_base)
                "Stack" "Job" props_connected empty_world job w' Hrun)
      as (cfn & Hemit & _ & _ & _ & _ & _ & _ & _ & _ & Hconn & _).
    destruct (Hconn _ eq_refl) as (names & Hnames & Hlen & Hnth).
    exists cfn, names.
    split; [exact Hemit|]. split; [exact Hnames|]. split; [exact Hlen|].
    split; [exact (Hnth 0) | exact (Hnth 1)].
  - assert (∃ job w',
              pySparkStreamingJob_constructor (JB:=sample_base) "Stack" "Job"
                props_detailed empty_world = (Returned job, w'))
      as (job & w' & Hrun) by returns.
    exists job, w'. split; [exact Hrun|].
    destruct (pySparkStreamingJob_settings_pass_through (JB:=sample_base)
                "Stack" "Job" props_detailed empty_world job w' Hrun)
      as (cfn & Hemit & Hname & _ & Hretries & _ & Htimeout & _ & _ & Hsec
          & Hconn & _).
    destruct (Hconn _ eq_refl) as (names & Hnames & Hlen & _).
    exists cfn, names.
    split; [exact Hemit|]. split; [exact Hname|]. split; [exact Hretries|].
    split; [exact Htimeout|]. split; [exact Hsec|].
    split; [exact Hnames | exact Hlen].
Defined.

(** X14 on the job ["Stack/Job"]. *)
Lemma pySparkStreamingJob_name_and_arn_witness :
  ∃ job w',
    pySparkStreamingJob_constructor (JB:=sample_base) "Stack" "Job"
      props_minimal empty_world = (Returned job, w')
    ∧ ∃ name,
        name = "Stack/Job/Resource"
        ∧ this_jobName job = Some name
        ∧ this_jobArn job
          = Some (buildJobArn (JobBase:=sample_base) "Stack/Job" name).
Proof.
  assert (∃ job w',
            pySparkStreamingJob_constructor (JB:=sample_base) "Stack" "Job"
              props_minimal empty_world = (Returned job, w'))
    as (job & w' & Hrun) by returns.
  exists job, w'. split; [exact Hrun|].
  exact (pySparkStreamingJob_name_and_arn (JB:=sample_base) "Stack" "Job"
           props_minimal empty_world job w' Hrun).
Defined.

(** X15 on a job with a bucket and the prefix ["logs/"]. *)
Lemma pySparkStreamingJob_logging_location_witness :
  ∃ job w',
    pySparkStreamingJob_constructor (JB:=sample_base) "Stack" "Job"
      props_detailed empty_world = (Returned job, w')
    ∧ this_sparkUILoggingLocation job
      = Some {| location_prefix := Some "logs/";
                location_bucket := logs_bucket |}
    ∧ validSparkUiPrefix (JobBase:=sample_base) (Some "logs/") = true
    ∧ grants w' = [(logs_bucket, glue_role, Some "logs/*")].
Proof.
  assert (∃ job w',
            pySparkStreamingJob_constructor (JB:=sample_base) "Stack" "Job"
              props_detailed empty_world = (Returned job, w'))
    as (job & w' & Hrun) by returns.
  exists job, w'. split; [exact Hrun|].
  exact (pySparkStreamingJob_logging_location (JB:=sample_base) "Stack" "Job"
           props_detailed empty_world job w' sparkUI_logs logs_bucket Hrun
           eq_refl eq_refl).
Defined.

(** X16 on a caller who sets a key of the framework's: the caller's value
    stands. *)
Lemma pySparkStreamingJob_caller_arguments_kept_witness :
  ∃ job w',
    pySparkStreamingJob_constructor (JB:=sample_base) "Stack" "Job"
      props_detailed empty_world = (Returned job, w')
    ∧ ∃ cfn,
        emitted w' = [("Stack/Job", cfn)]
        ∧ cfn_defaultArguments cfn !! "--enable-metrics" = Some "off"
        ∧ cfn_defaultArguments cfn !! "--custom" = Some "1".
Proof.
  assert (∃ job w',
            pySparkStreamingJob_constructor (JB:=sample_base) "Stack" "Job"
              props_detailed empty_world = (Returned job, w'))
    as (job & w' & Hrun) by returns.
  exists job, w'. split; [exact Hrun|].
  destruct (pySparkStreamingJob_caller_arguments_kept (JB:=sample_base)
              "Stack" "Job" props_detailed empty_world job w'
              {[ "--custom" := "1"; "--enable-metrics" := "off" ]} Hrun
              eq_refl)
    as (cfn & Hemit & Hsub).
  exists cfn. split; [exact Hemit|].
  split.
  - exact (proj1 (map_subseteq_spec _ _) Hsub "--enable-metrics" "off"
             eq_refl).
  - exact (proj1 (map_subseteq_spec _ _) Hsub "--custom" "1" eq_refl).
Defined.

(** X17 on a job with every fragment present. *)
Lemma pySparkStreamingJob_argument_keys_witness :
  ∃ job w',
    pySparkStreamingJob_constructor (JB:=sample_base) "Stack" "Job"
      props_detailed empty_world = (Returned job, w')
    ∧ ∃ cfn,
        emitted w' = [("Stack/Job", cfn)]
        ∧ dom (cfn_defaultArguments cfn)
          = {[ "--job-language"; "--enable-metrics" ]}
            ∪ {[ "--enable-continuous-cloudwatch-log" ]}
            ∪ {[ "--enable-spark-ui"; "--spark-event-logs-path" ]}
            ∪ {[ "--custom"; "--enable-metrics" ]}.
Proof.
  assert (∃ job w',
            pySparkStreamingJob_constructor (JB:=sample_base) "Stack" "Job"
              props_detailed empty_world = (Returned job, w'))
    as (job & w' & Hrun) by returns.
  exists job, w'. split; [exact Hrun|].
  destruct (pySparkStreamingJob_argument_keys (JB:=sample_base)
              "Stack" "Job" props_detailed empty_world job w' Hrun)
    as (cfn & Hemit & Hdom).
  exists cfn. split; [exact Hemit|].
  rewrite Hdom. vm_compute. reflexivity.
Defined.

(** X18 on a job with only a script and a role. *)
Lemma pySparkStreamingJob_bare_arguments_witness :
  ∃ job w',
    pySparkStreamingJob_constructor (JB:=sample_base) "Stack" "Job"
      props_minimal empty_world = (Returned job, w')
    ∧ ∃ cfn,
        emitted w' = [("Stack/Job", cfn)]
        ∧ cfn_defaultArguments cfn
          = {[ "--job-language" := "python"; "--enable-metrics" := "" ]}.
Proof.
  assert (∃ job w',
            pySparkStreamingJob_constructor (JB:=sample_base) "Stack" "Job"
              props_minimal empty_world = (Returned job, w'))
    as (job & w' & Hrun) by returns.
  exists job, w'. split; [exact Hrun|].
  apply (pySparkStreamingJob_bare_arguments (JB:=sample_base) "Stack" "Job"
           props_minimal empty_world job w' Hrun);
    [intros cl Hcl; discriminate Hcl | reflexivity | reflexivity].
Defined.

(** X20 on two Ray jobs that differ in script and worker settings. *)
Lemma RayJob_reads_name_role_and_arguments_only_witness :
  RayJob_constructor (JB:=sample_base) "Stack" "Ray" minimal_props
    empty_world
  = RayJob_constructor (JB:=sample_base) "Stack" "Ray"
      (with_workers (Some Z_2X) None minimal_props) empty_world.
Proof.
  exact (RayJob_reads_name_role_and_arguments_only (JB:=sample_base)
           "Stack" "Ray" minimal_props
           (with_workers (Some Z_2X) None minimal_props) empty_world
           eq_refl eq_refl eq_refl).
Defined.
